(** * Object modifiers of the standard Blender action plugin

    A shallow embedding of
    [src/catharsys/plugins/std/blender/modify/func/object_util.py]:
    the modifier entry points [Enable], [EnableIfBoundBox],
    [ModifyProperties], [ModifyAttributes], [ParentToObject],
    [RenameObject], [LogObject] and [ExportObjectObj], together with the
    properties the specification states about them.

    Python values are an inductive type, exceptions are data, and every
    modifier is a computation in a state-and-exception monad over the
    live scene: an exception leaves the scene as it was when it was
    raised, which is what Python does. *)

From Stdlib Require Import ZArith Floats Ascii String.
From stdpp Require Import base option list strings pretty gmap.

Open Scope string_scope.
Open Scope list_scope.
Set Warnings "-register-all".

(** ** Python values *)

(** [VObject] stands for any object that is not data, such as a struct
    of the host or a field descriptor; a tuple is held as a [VList]. *)
Inductive pyval : Type :=
| VNone
| VBool (b : bool)
| VInt (z : Z)
| VFloat (x : float)
| VStr (s : string)
| VList (l : list pyval)
| VDict (d : list (pyval * pyval))
| VObject (repr : string).

(** A dict keeps its insertion order, so it is an association list;
    [.items()] yields it front to back. *)
Abbreviation pydict := (list (pyval * pyval)).

Inductive pytype : Type :=
  TNone | TBool | TInt | TFloat | TStr | TList | TDict | TObject.

Global Instance pytype_eq_dec : EqDecision pytype.
Proof. solve_decision. Defined.

Definition type_of (v : pyval) : pytype :=
  match v with
  | VNone => TNone
  | VBool _ => TBool
  | VInt _ => TInt
  | VFloat _ => TFloat
  | VStr _ => TStr
  | VList _ => TList
  | VDict _ => TDict
  | VObject _ => TObject
  end.

(** [isinstance(v, t)]; [bool] is a subclass of [int]. *)
Definition isinstance (v : pyval) (t : pytype) : bool :=
  match v, t with
  | VBool _, TInt => true
  | _, _ => bool_decide (type_of v = t)
  end.

(** Truth value of an object, as taken by [not] and [if]. *)
Definition truthy (v : pyval) : bool :=
  match v with
  | VNone => false
  | VBool b => b
  | VInt z => negb (z =? 0)%Z
  | VFloat x => negb (PrimFloat.eqb x 0%float)
  | VStr s => negb (bool_decide (s = EmptyString))
  | VList l => negb (bool_decide (length l = 0))
  | VDict d => negb (bool_decide (length d = 0))
  | VObject _ => true
  end.

(** [d.get(k)] for a string key. *)
Fixpoint dict_get (d : pydict) (k : string) : option pyval :=
  match d with
  | [] => None
  | (VStr k', v) :: d' => if bool_decide (k' = k) then Some v else dict_get d' k
  | _ :: d' => dict_get d' k
  end.

(** ** Strings: [str.split] and [str.join] *)

(** [s.split(c)] for a one-character separator: never empty, and an
    empty piece for every separator at an end or next to another one. *)
Fixpoint split_on (c : ascii) (s : string) : list string :=
  match s with
  | EmptyString => [EmptyString]
  | String a rest =>
      if bool_decide (a = c) then EmptyString :: split_on c rest
      else match split_on c rest with
           | h :: t => String a h :: t
           | [] => [String a EmptyString]
           end
  end.

(** [sep.join(l)] *)
Fixpoint join (sep : string) (l : list string) : string :=
  match l with
  | [] => EmptyString
  | [x] => x
  | x :: l' => x +:+ sep +:+ join sep l'
  end.

(** ** Exceptions *)

(** A message is the format string of the source with one [{}] for each
    interpolated value, and the values in order. *)
Record message : Type := Msg { msg_format : string; msg_args : list pyval }.

Inductive exn : Type :=
| AssertionError (what : string)
| ParamError (field : string) (what : string)
| AttributeError (attr : string)
| TypeError (what : string)
| KeyError (m : message)
| RuntimeError (m : message)
| Exception_ (m : message)
| ReError
| ReferenceError
| RecursionError
| OverflowError (what : string)
| OSError (what : string).

Inductive outcome (A : Type) : Type :=
| Ok (a : A)
| Raise (e : exn).
Arguments Ok {A} a.
Arguments Raise {A} e.

Definition obind {A B : Type} (x : outcome A) (f : A -> outcome B) : outcome B :=
  match x with
  | Ok a => f a
  | Raise e => Raise e
  end.

(** ** The scene *)

(** The attributes the host exposes below an object ([data.lens],
    [location.x], ...): a plain value, or a struct of named fields, each
    of which the host lets be assigned or not. *)
Inductive rna : Type :=
| RValue (v : pyval)
| RStruct (fields : list (string * (bool * rna))).

(** A scene object.  The fields are the attributes the modifiers touch
    by name; [props] are the custom properties, reached by subscript
    ([_objX[key]]); [attrs] is a tree of further attributes for the
    host to expose.  The hierarchy is held by the [parent] pointers, as
    in the host, and [children] is read off them. *)
Record BObject : Type := {
  name : string;
  type_ : string;
  hide_render : bool;
  parent : option nat;
  props : gmap string pyval;
  attrs : list (string * (bool * rna));
}.

Definition set_name (s : string) (o : BObject) : BObject :=
  {| name := s; type_ := type_ o; hide_render := hide_render o;
     parent := parent o; props := props o; attrs := attrs o |}.

Definition set_hide_render (b : bool) (o : BObject) : BObject :=
  {| name := name o; type_ := type_ o; hide_render := b;
     parent := parent o; props := props o; attrs := attrs o |}.

Definition set_parent (p : option nat) (o : BObject) : BObject :=
  {| name := name o; type_ := type_ o; hide_render := hide_render o;
     parent := p; props := props o; attrs := attrs o |}.

Definition set_props (m : gmap string pyval) (o : BObject) : BObject :=
  {| name := name o; type_ := type_ o; hide_render := hide_render o;
     parent := parent o; props := m; attrs := attrs o |}.

Definition set_attrs (a : list (string * (bool * rna))) (o : BObject) : BObject :=
  {| name := name o; type_ := type_ o; hide_render := hide_render o;
     parent := parent o; props := props o; attrs := a |}.

(** A file-system path as [pathlib] holds it. *)
Record Path : Type := { absolute : bool; parts : list string }.

Global Instance Path_eq_dec : EqDecision Path.
Proof. solve_decision. Defined.

(** Calls into the host libraries whose effect is not part of this
    module; they are recorded in the order they are made. *)
Inductive HostCall : Type :=
| CallParentAnyCam (sCamId : string) (sParentId : pyval)
| CallParentObject (objParent objChild : nat) (bKeepTransform : pyval)
| CallViewLayerUpdate
| CallHide (obj : nat) (bHide bHideRender bRecursive : bool)
| CallUpdateTag (obj : nat)
| CallExportFromScene_Obj (pathFile : Path) (obj : nat)
| CallPrint (args : list pyval)
| CallJsonDump (sLogFile : pyval) (dicJson : pydict).

(** The world a modifier runs in.  An object reference ([_objX],
    [objParent], ...) is an index into [objects], which stands for
    [bpy.data.objects]; [fs] lists the paths that exist.
    [g_bInBlenderContext] is the flag of the module: an import that
    fails clears it, and then the decorators of the module, which come
    from the same imports, are not bound and the module does not load;
    so wherever a modifier is called the flag is set. *)
Record State : Type := {
  g_bInBlenderContext : bool;
  objects : list BObject;
  blend_dir : Path;
  fs : list Path;
  calls : list HostCall;
}.

Definition set_objects (l : list BObject) (st : State) : State :=
  {| g_bInBlenderContext := g_bInBlenderContext st; objects := l;
     blend_dir := blend_dir st; fs := fs st; calls := calls st |}.

Definition set_fs (l : list Path) (st : State) : State :=
  {| g_bInBlenderContext := g_bInBlenderContext st; objects := objects st;
     blend_dir := blend_dir st; fs := l; calls := calls st |}.

Definition add_call (c : HostCall) (st : State) : State :=
  {| g_bInBlenderContext := g_bInBlenderContext st; objects := objects st;
     blend_dir := blend_dir st; fs := fs st; calls := calls st ++ [c] |}.

(** ** The monad of modifiers *)

Definition M (A : Type) : Type := State -> outcome A * State.

Definition ret {A : Type} (a : A) : M A := fun st => (Ok a, st).

Definition raise {A : Type} (e : exn) : M A := fun st => (Raise e, st).

Definition bind {A B : Type} (m : M A) (f : A -> M B) : M B :=
  fun st =>
    match m st with
    | (Ok a, st') => f a st'
    | (Raise e, st') => (Raise e, st')
    end.

Definition lift {A : Type} (x : outcome A) : M A := fun st => (x, st).

Definition gets {A : Type} (f : State -> A) : M A := fun st => (Ok (f st), st).

Definition modify (f : State -> State) : M unit := fun st => (Ok tt, f st).

Notation "x <- m ;; k" := (bind m (fun x => k))
  (at level 100, m at next level, right associativity).
Notation "m ;;; k" := (bind m (fun _ => k))
  (at level 100, right associativity).

(** [for x in l: body(x)] *)
Fixpoint for_each {A : Type} (l : list A) (body : A -> M unit) : M unit :=
  match l with
  | [] => ret tt
  | x :: l' => body x ;;; for_each l' body
  end.

(** Reading and writing the object behind a reference. *)
Definition get_obj (i : nat) : M BObject :=
  fun st =>
    match objects st !! i with
    | Some o => (Ok o, st)
    | None => (Raise ReferenceError, st)
    end.

Definition put_obj (i : nat) (o : BObject) : M unit :=
  modify (fun st => set_objects (<[i := o]> (objects st)) st).

Definition host_call (c : HostCall) : M unit := modify (add_call c).

(** [bpy.data.objects.get(key)]: the object of that name, or [None]. *)
Fixpoint find_name (s : string) (i : nat) (l : list BObject) : option nat :=
  match l with
  | [] => None
  | o :: l' => if bool_decide (name o = s) then Some i else find_name s (S i) l'
  end.

Definition objects_get (key : pyval) : M (option nat) :=
  match key with
  | VStr s => gets (fun st => find_name s 0 (objects st))
  | _ => raise (TypeError "bpy_prop_collection.get: key must be a string")
  end.

(** [assertion.IsTrue(g_bInBlenderContext)] *)
Definition assert_in_blender : M unit :=
  fun st =>
    if g_bInBlenderContext st then (Ok tt, st)
    else (Raise (AssertionError "IsTrue"), st).

(** ** Parameter classes *)

(** One declared field of a [@paramclass]: its annotation, whether it is
    [REQUIRED], its [DEFAULT] and its [DEPRECATED] former names. *)
Record ParamField : Type := {
  pf_name : string;
  pf_type : pytype;
  pf_required : bool;
  pf_default : option pyval;
  pf_deprecated : list string;
}.

(** What an instance holds: a value for each declared field. *)
Abbreviation params := (list (string * pyval)).

Fixpoint assoc {A : Type} (k : string) (l : list (string * A)) : option A :=
  match l with
  | [] => None
  | (k', a) :: l' => if bool_decide (k' = k) then Some a else assoc k l'
  end.

Fixpoint assoc_set {A : Type} (k : string) (a : A) (l : list (string * A)) :
  list (string * A) :=
  match l with
  | [] => []
  | (k', a') :: l' =>
      if bool_decide (k' = k) then (k', a) :: l' else (k', a') :: assoc_set k a l'
  end.

Fixpoint dict_get_any (d : pydict) (ks : list string) : option pyval :=
  match ks with
  | [] => None
  | k :: ks' =>
      match dict_get d k with
      | Some v => Some v
      | None => dict_get_any d ks'
      end
  end.

(** Modelled from the spec: the constructor that the [paramclass]
    decorator of the [anybase] package gives a parameter class; the
    package is not part of this repository.  The spec has it that "a
    schema check validates required/optional fields and applies
    defaults/deprecated-field aliases" and that the fields are "typed"
    and "validated before use": a field is read under its name, else
    under a deprecated name; a value that is there must have the
    declared type; a field that is not there takes its default, and is
    an error when it is required and has none. *)
Definition init_field (dic : pydict) (f : ParamField) : outcome pyval :=
  match dict_get_any dic (pf_name f :: pf_deprecated f) with
  | Some v =>
      if isinstance v (pf_type f) then Ok v
      else Raise (ParamError (pf_name f) "type")
  | None =>
      match pf_default f with
      | Some d => Ok d
      | None =>
          if pf_required f then Raise (ParamError (pf_name f) "missing")
          else Ok VNone
      end
  end.

Fixpoint paramclass_init (schema : list ParamField) (dic : pydict) : outcome params :=
  match schema with
  | [] => Ok []
  | f :: schema' =>
      obind (init_field dic f) (fun v =>
      obind (paramclass_init schema' dic) (fun r =>
      Ok ((pf_name f, v) :: r)))
  end.

(** [mp.k]: Python raises [AttributeError] for a name the object does
    not have. *)
Definition getattr_param (mp : params) (k : string) : outcome pyval :=
  match assoc k mp with
  | Some v => Ok v
  | None => Raise (AttributeError k)
  end.

Definition field_sDTI : ParamField :=
  {| pf_name := "sDTI"; pf_type := TStr; pf_required := true;
     pf_default := None; pf_deprecated := ["sType"] |}.

Definition CEnableParams : list ParamField :=
  [ field_sDTI;
    {| pf_name := "xValue"; pf_type := TBool; pf_required := true;
       pf_default := None; pf_deprecated := [] |} ].

Definition CModifyPropertiesParams : list ParamField :=
  [ field_sDTI;
    {| pf_name := "mValues"; pf_type := TDict; pf_required := true;
       pf_default := None; pf_deprecated := [] |} ].

Definition CModifyAttributesParams : list ParamField :=
  [ field_sDTI;
    {| pf_name := "mValues"; pf_type := TDict; pf_required := true;
       pf_default := None; pf_deprecated := ["dValues"] |} ].

Definition CParentToObjectParams : list ParamField :=
  [ field_sDTI;
    {| pf_name := "sParentObject"; pf_type := TStr; pf_required := true;
       pf_default := None; pf_deprecated := [] |};
    {| pf_name := "bKeepTransform"; pf_type := TBool; pf_required := false;
       pf_default := Some (VBool false); pf_deprecated := [] |};
    {| pf_name := "bSkipNonexistingParent"; pf_type := TBool; pf_required := false;
       pf_default := Some (VBool false); pf_deprecated := [] |} ].

Definition CRenameObjectParams : list ParamField :=
  [ field_sDTI;
    {| pf_name := "sReplace"; pf_type := TStr; pf_required := true;
       pf_default := None; pf_deprecated := [] |};
    {| pf_name := "bUseRegEx"; pf_type := TBool; pf_required := false;
       pf_default := Some (VBool false); pf_deprecated := ["sUseRegEx"] |};
    {| pf_name := "sSearch"; pf_type := TStr; pf_required := false;
       pf_default := Some (VStr EmptyString); pf_deprecated := [] |} ].

Definition CExportObjectObjParams : list ParamField :=
  [ field_sDTI;
    {| pf_name := "sFilePath"; pf_type := TStr; pf_required := true;
       pf_default := None; pf_deprecated := [] |};
    {| pf_name := "bCreatePath"; pf_type := TBool; pf_required := false;
       pf_default := Some (VBool false); pf_deprecated := [] |} ].

(** ** What the host and the libraries decide *)

(** A match of a regular expression: the span it covers and the text of
    its groups. *)
Record Match : Type := {
  m_start : nat;
  m_end : nat;
  m_groups : list (option string);
}.

(** The functions of [anybase], [anyblend] and Python's [re] and [json]
    that the modifiers call and whose results they only pass on.
    [CEnableIfBoundBoxParams_cls] and [CLogObjectParams_cls] are the two
    class objects as the decorator leaves them: the attributes one can
    read on the class itself.

    The rest is what Blender and the interpreter do with the objects
    the modifiers are handed:
    - [unique_name others s] is the name an object ends with when it is
      assigned the name [s] while the other objects of the scene are
      named [others]: the setter of [Object.name] replaces an empty
      name, cuts a long one and numbers one that is taken;
    - [py_getattr l i objY k] is [getattr(y, k)] where [y] is reached
      from the object [i] of the scene [l] by the attribute names
      [objY], and [None] when [hasattr(y, k)] is false;
    - [py_setattr l i objY k v] is the scene after [setattr(y, k, v)],
      and [None] when the assignment raises;
    - [dump_json_file fs f d] is the exception that opening the file
      [f] for writing and dumping [d] to it ends with, the paths [fs]
      existing, and [None] when the file is written;
    - [recursion_limit] is the number of nested calls the interpreter
      still allows when a modifier is entered. *)
Record Host : Type := {
  CheckConfigType : pydict -> string -> bool;
  ToTypename : pyval -> string;
  re_finditer : string -> string -> option (list Match);
  re_template : string -> string -> option (Match -> string);
  IsObjectInside : list BObject -> nat * pyval -> nat -> pyval -> bool;
  IsObjectOutside : list BObject -> nat * pyval -> nat -> pyval -> bool;
  IsObjectIntersect : list BObject -> nat * pyval -> nat -> pyval -> bool;
  json_loads : pyval -> option pyval;
  CEnableIfBoundBoxParams_cls : params;
  CLogObjectParams_cls : params;
  unique_name : list string -> string -> string;
  py_getattr : list BObject -> nat -> list string -> string -> option pyval;
  py_setattr : list BObject -> nat -> list string -> string -> pyval ->
               option (list BObject);
  dump_json_file : list Path -> pyval -> pydict -> option exn;
  recursion_limit : nat;
}.

(** The names of the objects other than [i]. *)
Definition other_names (l : list BObject) (i : nat) : list string :=
  name <$> delete i l.

(** ** Paths *)

Definition nonempty (s : string) : bool := negb (bool_decide (s = EmptyString)).

(** Lexical normalisation of the components: empty and [.] components
    go, [..] takes back the component before it. *)
Fixpoint norm_parts (abs : bool) (stack : list string) (ps : list string) : list string :=
  match ps with
  | [] => rev stack
  | p :: ps' =>
      if bool_decide (p = EmptyString) || bool_decide (p = ".") then norm_parts abs stack ps'
      else if bool_decide (p = "..") then
        match stack with
        | top :: stack' =>
            if bool_decide (top = "..") then norm_parts abs (p :: stack) ps'
            else norm_parts abs stack' ps'
        | [] => if abs then norm_parts abs [] ps' else norm_parts abs [p] ps'
        end
      else norm_parts abs (p :: stack) ps'
  end.

Definition parse_path (s : string) : Path :=
  {| absolute := match s with String "/" _ => true | _ => false end;
     parts := List.filter nonempty (split_on "/" s) |}.

(** [path.MakeNormPath], on a path and on a string. *)
Definition MakeNormPath (p : Path) : Path :=
  {| absolute := absolute p; parts := norm_parts (absolute p) [] (parts p) |}.

Definition MakeNormPath_str (s : string) : Path := MakeNormPath (parse_path s).

(** [a / b] *)
Definition path_join (a b : Path) : Path :=
  if absolute b then b
  else {| absolute := absolute a; parts := parts a ++ parts b |}.

(** [p.parent] *)
Definition path_parent (p : Path) : Path :=
  {| absolute := absolute p; parts := removelast (parts p) |}.

(** [p.as_posix()] *)
Definition as_posix (p : Path) : string :=
  match absolute p, parts p with
  | true, ps => "/" +:+ join "/" ps
  | false, [] => "."
  | false, ps => join "/" ps
  end.

(** [p.exists()] *)
Definition path_exists (p : Path) (st : State) : bool := bool_decide (p ∈ fs st).

(** The path and every directory above it, outermost first. *)
Definition ancestors (p : Path) : list Path :=
  map (fun n => {| absolute := absolute p; parts := take n (parts p) |})
      (seq 0 (S (length (parts p)))).

(** [p.mkdir(parents=True, exist_ok=True)]: afterwards the directory and
    all directories above it exist. *)
Definition mkdir_parents (p : Path) : M unit :=
  modify (fun st =>
    set_fs (fs st ++ List.filter (fun q => negb (bool_decide (q ∈ fs st))) (ancestors p)) st).

(** ** Regular-expression substitution *)

Definition substring_from (n : nat) (s : string) : string :=
  substring n (String.length s - n) s.

(** The text of [s] from [pos] on, with every match replaced by its
    expansion. *)
Fixpoint splice (expand : Match -> string) (s : string) (pos : nat) (ms : list Match) :
  string :=
  match ms with
  | [] => substring_from pos s
  | m :: ms' =>
      substring pos (m_start m - pos) s +:+ expand m +:+ splice expand s (m_end m) ms'
  end.

(** [_objX.children]: the objects whose parent is [_objX]. *)
Definition children (l : list BObject) (i : nat) : list nat :=
  List.filter
    (fun j => match l !! j with
              | Some o => bool_decide (parent o = Some i)
              | None => false
              end)
    (seq 0 (length l)).

Section Modifiers.

Context (H : Host).

(** [re.sub(pattern, repl, string)]: the pattern and the template are
    compiled, which can fail, and then all matches are replaced. *)
Definition re_sub (pattern repl s : pyval) : outcome pyval :=
  match pattern, repl, s with
  | VStr pattern, VStr repl, VStr s =>
      match re_finditer H pattern s, re_template H pattern repl with
      | Some ms, Some expand => Ok (VStr (splice expand s 0 ms))
      | _, _ => Raise ReError
      end
  | _, _, _ => Raise (TypeError "re.sub: expected string")
  end.

(** [config.AssertConfigType(_dicMod, sDti)] *)
Definition AssertConfigType (_dicMod : pydict) (sDti : string) : M unit :=
  if CheckConfigType H _dicMod sDti then ret tt
  else raise (AssertionError "AssertConfigType").

(** ** Enable *)

Definition upd_obj (i : nat) (f : BObject -> BObject) : M unit :=
  o <- get_obj i ;; put_obj i (f o).

(** The recursion follows the hierarchy; [fuel] is the number of nested
    calls the interpreter still allows, and the call that exceeds it
    raises before its body runs. *)
Fixpoint _EnableRender (fuel : nat) (_objX : nat) (_bEnable : pyval) (bRecursive : bool) :
  M unit :=
  match fuel with
  | 0 => raise RecursionError
  | S fuel' =>
      upd_obj _objX (set_hide_render (negb (truthy _bEnable))) ;;;
      if bRecursive then
        cs <- gets (fun st => children (objects st) _objX) ;;
        for_each cs (fun objC => _EnableRender fuel' objC _bEnable bRecursive)
      else ret tt
  end.

Definition Enable (_objX : nat) (_dicMod : pydict) : M unit :=
  assert_in_blender ;;;
  AssertConfigType _dicMod "/catharsys/blender/modify/object/enable:1.0" ;;;
  mp <- lift (paramclass_init CEnableParams _dicMod) ;;
  bEnable <- lift (getattr_param mp "xValue") ;;
  _EnableRender (recursion_limit H) _objX bEnable true.

(** ** EnableIfBoundBox *)

Definition is_str (v : pyval) (s : string) : bool :=
  match v with
  | VStr s' => bool_decide (s' = s)
  | _ => false
  end.

Definition EnableIfBoundBox (_objX : nat) (_dicMod : pydict) : M unit :=
  assert_in_blender ;;;
  AssertConfigType _dicMod "/catharsys/blender/modify/object/enable-if/bound-box:1.0" ;;;
  let mp := CEnableIfBoundBoxParams_cls H in
  sTarget <- lift (getattr_param mp "sTarget") ;;
  objTarget <- objects_get sTarget ;;
  match objTarget with
  | None => raise (RuntimeError (Msg "Target object '{}' not found" [sTarget]))
  | Some objTarget =>
      bCompoundTarget <- lift (getattr_param mp "bCompoundTarget") ;;
      let boxTarget := (objTarget, bCompoundTarget) in
      sRelation <- lift (getattr_param mp "sRelation") ;;
      bEnable <-
        (if is_str sRelation "INSIDE" then
           fBorder <- lift (getattr_param mp "fBorder") ;;
           l <- gets objects ;;
           ret (Some (IsObjectInside H l boxTarget _objX fBorder))
         else if is_str sRelation "OUTSIDE" then
           fBorder <- lift (getattr_param mp "fBorder") ;;
           l <- gets objects ;;
           ret (Some (IsObjectOutside H l boxTarget _objX fBorder))
         else if is_str sRelation "INTERSECT" then
           fBorder <- lift (getattr_param mp "fBorder") ;;
           l <- gets objects ;;
           ret (Some (IsObjectIntersect H l boxTarget _objX fBorder))
         else ret None) ;;
      match bEnable with
      | None =>
          sRelation <- lift (getattr_param mp "sRelation") ;;
          raise (RuntimeError
                   (Msg "Unsupported relation '{}'. Expect one of ['INSIDE', 'OUTSIDE', 'INTERSECT']"
                        [sRelation]))
      | Some bEnable => host_call (CallHide _objX (negb bEnable) (negb bEnable) true)
      end
  end.

(** ** ModifyProperties *)

(** [_objX[sKey] = xValue] for a value of one of the three types: the
    host keeps an integer property as a C [int] and raises
    [OverflowError] for an integer that does not fit. *)
Definition fits_c_int (z : Z) : bool := ((- 2 ^ 31 <=? z) && (z <? 2 ^ 31))%Z.

Definition assign_prop (_objX : nat) (o : BObject) (sKey : string) (xValue : pyval) :
  M unit :=
  match xValue with
  | VInt z =>
      if fits_c_int z then put_obj _objX (set_props (<[sKey := xValue]> (props o)) o)
      else raise (OverflowError "Python int too large to convert to C int")
  | _ => put_obj _objX (set_props (<[sKey := xValue]> (props o)) o)
  end.

(** The body of the loop over the items of the values map. *)
Definition ModifyProperties_entry (_objX : nat) (item : pyval * pyval) : M unit :=
  let '(sKey, xValue) := item in
  match sKey with
  | VStr sKey =>
      o <- get_obj _objX ;;
      if negb (bool_decide (is_Some (props o !! sKey))) then
        raise (RuntimeError (Msg "Property '{}' not found in object '{}'"
                                 [VStr sKey; VStr (name o)]))
      else if isinstance xValue TInt || isinstance xValue TFloat || isinstance xValue TStr then
        assign_prop _objX o sKey xValue
      else
        let sType := ToTypename H xValue in
        raise (RuntimeError (Msg "Value for property '{}' of unsupported type '{}'"
                                 [VStr sKey; VStr sType]))
  | _ => raise (RuntimeError (Msg "Invalid key type in modify attributes: {}" [sKey]))
  end.

Definition ModifyProperties_loop (_objX : nat) (items : pydict) : M unit :=
  for_each items (ModifyProperties_entry _objX).

(** The class declares [mValues]; the function reads [mp.dicValues]. *)
Definition ModifyProperties (_objX : nat) (_dicMod : pydict) : M unit :=
  assert_in_blender ;;;
  mp <- lift (paramclass_init CModifyPropertiesParams _dicMod) ;;
  dicValues <- lift (getattr_param mp "dicValues") ;;
  match dicValues with
  | VDict items =>
      ModifyProperties_loop _objX items ;;;
      host_call (CallUpdateTag _objX)
  | _ => raise (RuntimeError (Msg "Missing element 'mValues' in modify properties modifier" []))
  end.

(** ** ModifyAttributes *)

(** [enumerate(l)] *)
Definition enumerate {A : Type} (l : list A) : list (nat * A) :=
  zip (seq 0 (length l)) l.

(** A reference [objY] obtained from [_objX] by [getattr] is kept as
    the attribute names that lead to it: it points into the live scene,
    and the host is asked with the scene, the object and these names. *)
Definition hasattr (l : list BObject) (_objX : nat) (objY : list string) (k : string) :
  bool :=
  match py_getattr H l _objX objY k with
  | Some _ => true
  | None => false
  end.

(** The walk along the segments of a key.  [lPath] is the names walked,
    for the message.  The result is [objY] and [sFinalKey]. *)
Fixpoint walk (l : list BObject) (_objX : nat) (nLen : nat) (lKey : list (nat * string))
    (objY : list string) (lPath : list string) :
  outcome (list string * option string) :=
  match lKey with
  | [] => Ok (objY, None)
  | (iIdx, sSubKey) :: lKey' =>
      if negb (hasattr l _objX objY sSubKey) then
        Raise (RuntimeError (Msg "Object '{}' has no attribute '{}'"
                                 [VStr (join "." lPath); VStr sSubKey]))
      else if (Z.of_nat nLen - 1 <=? Z.of_nat iIdx)%Z then
        Ok (objY, Some sSubKey)
      else walk l _objX nLen lKey' (objY ++ [sSubKey]) (lPath ++ [sSubKey])
  end.

(** [setattr(objY, sFinalKey, xValue)] inside the [try]: [e] is what
    the handler raises. *)
Definition try_setattr (_objX : nat) (objY : list string) (sFinalKey : string)
    (xValue : pyval) (e : exn) : M unit :=
  fun st =>
    match py_setattr H (objects st) _objX objY sFinalKey xValue with
    | Some l' => (Ok tt, set_objects l' st)
    | None => (Raise e, st)
    end.

Definition could_not_set (sKey : string) (o : BObject) (xValue : pyval) : exn :=
  Exception_ (Msg "Could not set attribute '{}' of object '{}' to value: {} "
                  [VStr sKey; VStr (name o); xValue]).

(** The body of the loop over the items of the values map. *)
Definition ModifyAttributes_entry (_objX : nat) (item : pyval * pyval) : M unit :=
  let '(sKey, xValue) := item in
  match sKey with
  | VStr sKey =>
      o <- get_obj _objX ;;
      let lKey := split_on "." sKey in
      l <- gets objects ;;
      r <- lift (walk l _objX (length lKey) (enumerate lKey) [] [name o]) ;;
      let '(objY, sFinalKey) := r in
      match sFinalKey with
      | Some sFinalKey => try_setattr _objX objY sFinalKey xValue (could_not_set sKey o xValue)
      | None => raise (could_not_set sKey o xValue)
      end
  | _ => raise (RuntimeError (Msg "Invalid key type in modify attributes: {}" [sKey]))
  end.

Definition ModifyAttributes_loop (_objX : nat) (items : pydict) : M unit :=
  for_each items (ModifyAttributes_entry _objX).

Definition ModifyAttributes (_objX : nat) (_dicMod : pydict) : M unit :=
  mp <- lift (paramclass_init CModifyAttributesParams _dicMod) ;;
  assert_in_blender ;;;
  dicValues <- lift (getattr_param mp "mValues") ;;
  match dicValues with
  | VDict items => ModifyAttributes_loop _objX items
  | _ => raise (RuntimeError (Msg "Missing element 'mValues' in modify attributes modifier" []))
  end.

(** ** ParentToObject *)

(** Modelled from the spec: [anyobj.ParentObject] of the [anyblend]
    package, which is not part of this repository: "re-parenting an
    object to a named target, with an option to preserve world
    transform".  The parent pointer is set; what the option does to the
    transform is the host's, and the call is recorded with it. *)
Definition ParentObject (objParent objChild : nat) (bKeepTransform : pyval) : M unit :=
  upd_obj objChild (set_parent (Some objParent)) ;;;
  host_call (CallParentObject objParent objChild bKeepTransform).

Definition ParentToObject (_objX : nat) (_dicMod : pydict) : M unit :=
  mp <- lift (paramclass_init CParentToObjectParams _dicMod) ;;
  o <- get_obj _objX ;;
  (if bool_decide (type_ o = "CAMERA") then
     sParentObject <- lift (getattr_param mp "sParentObject") ;;
     host_call (CallParentAnyCam (name o) sParentObject)
   else
     sParentObject <- lift (getattr_param mp "sParentObject") ;;
     objParent <- objects_get sParentObject ;;
     match objParent with
     | None =>
         bSkip <- lift (getattr_param mp "bSkipNonexistingParent") ;;
         if negb (truthy bSkip) then
           raise (RuntimeError (Msg "Object '{}' not found for parenting" [sParentObject]))
         else ret tt
     | Some objParent =>
         bKeepTransform <- lift (getattr_param mp "bKeepTransform") ;;
         ParentObject objParent _objX bKeepTransform
     end) ;;;
  host_call CallViewLayerUpdate.

(** ** RenameObject *)

Definition is_None (v : pyval) : bool :=
  match v with
  | VNone => true
  | _ => false
  end.

Definition sSearch_not_given : exn :=
  RuntimeError (Msg "Element 'sSearch' not given in object rename modifier" []).

(** [_objX.name = v]: the host settles the name. *)
Definition assign_name (_objX : nat) (v : pyval) : M unit :=
  match v with
  | VStr s =>
      l <- gets objects ;;
      upd_obj _objX (set_name (unique_name H (other_names l _objX) s))
  | _ => raise (TypeError "Object.name expected a string")
  end.

Definition RenameObject (_objX : nat) (_dicMod : pydict) : M unit :=
  mp <- lift (paramclass_init CRenameObjectParams _dicMod) ;;
  o <- get_obj _objX ;;
  let sName := VStr (name o) in
  sReplace <- lift (getattr_param mp "sReplace") ;;
  if is_None sReplace then
    raise (RuntimeError (Msg "Element 'sReplace' not given in object rename modifier" []))
  else
    bUseRegEx <- lift (getattr_param mp "bUseRegEx") ;;
    sNewName <-
      (if truthy bUseRegEx then
         sSearch <- lift (getattr_param mp "sSearch") ;;
         if is_None sSearch then raise sSearch_not_given
         else lift (re_sub sSearch sReplace sName)
       else ret sReplace) ;;
    assign_name _objX sNewName.

(** ** LogObject *)

(** What a [for] loop iterates over. *)
Definition py_iter (v : pyval) : outcome (list pyval) :=
  match v with
  | VList l => Ok l
  | VStr s => Ok (map (fun c => VStr (String c EmptyString)) (list_ascii_of_string s))
  | VDict d => Ok (map fst d)
  | _ => Raise (TypeError "object is not iterable")
  end.

(** [d[k] = v] for a string key: in place when the key is there, else at
    the end. *)
Fixpoint dict_set (d : pydict) (k : string) (v : pyval) : pydict :=
  match d with
  | [] => [(VStr k, v)]
  | (k', v') :: d' =>
      if is_str k' k then (k', v) :: d' else (k', v') :: dict_set d' k v
  end.

(** One round of the loop over the attribute names: [dicJson] after
    it. *)
Definition LogObject_attr (_objX : nat) (dicJson : pydict) (sAttr : pyval) : M pydict :=
  o <- get_obj _objX ;;
  match sAttr with
  | VStr a =>
      xAttribute <-
        match props o !! a with
        | Some v => ret v
        | None =>
            l <- gets objects ;;
            match py_getattr H l _objX [] a with
            | Some v => ret v
            | None => raise (KeyError (Msg "Attribute {} not in {}" [sAttr; VStr (name o)]))
            end
        end ;;
      match json_loads H xAttribute with
      | Some x => ret (dict_set dicJson a x)
      | None => ret (dict_set dicJson a xAttribute)
      end
  | _ => raise (TypeError "attribute name must be string")
  end.

Fixpoint LogObject_loop (_objX : nat) (dicJson : pydict) (l : list pyval) : M pydict :=
  match l with
  | [] => ret dicJson
  | sAttr :: l' =>
      dicJson' <- LogObject_attr _objX dicJson sAttr ;;
      LogObject_loop _objX dicJson' l'
  end.

Definition LogObject (_objX : nat) (_dicMod : pydict) : M unit :=
  let mp := CLogObjectParams_cls H in
  lAttributes <- lift (getattr_param mp "lAttributes") ;;
  if is_None lAttributes then
    raise (RuntimeError (Msg "List of object attribute names not given" []))
  else
    l <- lift (py_iter lAttributes) ;;
    dicJson <- LogObject_loop _objX [] l ;;
    sLogFile <- lift (getattr_param mp "sLogFile") ;;
    o <- get_obj _objX ;;
    if negb (is_None sLogFile) then
      host_call (CallPrint [VStr "=== Logging"; VStr (name o); VStr " to file"; sLogFile;
                            VStr "==="]) ;;;
      paths <- gets fs ;;
      match dump_json_file H paths sLogFile dicJson with
      | None => host_call (CallJsonDump sLogFile dicJson)
      | Some e => raise e
      end
    else
      host_call (CallPrint [VStr "=== Logging"; VStr (name o); VStr "==="]) ;;;
      host_call (CallPrint [VDict dicJson]).

(** ** ExportObjectObj *)

(** [v is True] *)
Definition is_True (v : pyval) : bool :=
  match v with
  | VBool true => true
  | _ => false
  end.

(** The path the export goes to: the given one, taken from the
    directory of the scene file when it is not absolute. *)
Definition export_path (sFilePath : string) (pathBlend : Path) : Path :=
  let pathFile := MakeNormPath_str sFilePath in
  if negb (absolute pathFile) then MakeNormPath (path_join pathBlend pathFile)
  else pathFile.

Definition ExportObjectObj (_objX : nat) (_dicMod : pydict) : M unit :=
  mp <- lift (paramclass_init CExportObjectObjParams _dicMod) ;;
  sFilePath <- lift (getattr_param mp "sFilePath") ;;
  match sFilePath with
  | VStr sFilePath =>
      pathBlend <- gets blend_dir ;;
      let pathFile := export_path sFilePath pathBlend in
      bCreatePath <- lift (getattr_param mp "bCreatePath") ;;
      bExists <- gets (path_exists (path_parent pathFile)) ;;
      (if negb bExists && is_True bCreatePath then mkdir_parents (path_parent pathFile)
       else ret tt) ;;;
      bExists <- gets (path_exists (path_parent pathFile)) ;;
      if negb bExists then
        o <- get_obj _objX ;;
        raise (RuntimeError (Msg "Export path for object ' {}' does not exist: {}"
                                 [VStr (name o); VStr (as_posix (path_parent pathFile))]))
      else host_call (CallExportFromScene_Obj pathFile _objX)
  | _ => raise (TypeError "expected str, bytes or os.PathLike object")
  end.

End Modifiers.

(** ** A host and a scene to run the modifiers on *)

(** *** Attributes *)

(** The public attributes of the built-in values (Python 3.10); the
    special names in double underscores are not listed. *)
Definition python_public_attrs (v : pyval) : list string :=
  match v with
  | VStr _ =>
      [ "capitalize"; "casefold"; "center"; "count"; "encode"; "endswith";
        "expandtabs"; "find"; "format"; "format_map"; "index"; "isalnum";
        "isalpha"; "isascii"; "isdecimal"; "isdigit"; "isidentifier"; "islower";
        "isnumeric"; "isprintable"; "isspace"; "istitle"; "isupper"; "join";
        "ljust"; "lower"; "lstrip"; "maketrans"; "partition"; "removeprefix";
        "removesuffix"; "replace"; "rfind"; "rindex"; "rjust"; "rpartition";
        "rsplit"; "rstrip"; "split"; "splitlines"; "startswith"; "strip";
        "swapcase"; "title"; "translate"; "upper"; "zfill" ]
  | VInt _ | VBool _ =>
      [ "as_integer_ratio"; "bit_count"; "bit_length"; "conjugate"; "denominator";
        "from_bytes"; "imag"; "numerator"; "real"; "to_bytes" ]
  | VFloat _ =>
      [ "as_integer_ratio"; "conjugate"; "fromhex"; "hex"; "imag"; "is_integer"; "real" ]
  | VList _ =>
      [ "append"; "clear"; "copy"; "count"; "extend"; "index"; "insert"; "pop";
        "remove"; "reverse"; "sort" ]
  | VDict _ =>
      [ "clear"; "copy"; "fromkeys"; "get"; "items"; "keys"; "pop"; "popitem";
        "setdefault"; "update"; "values" ]
  | VObject repr => if bool_decide (repr = "tuple") then ["count"; "index"] else []
  | VNone => []
  end.

(** [getattr(v, k)] on a built-in value: the number attributes are
    numbers, everything else is a method. *)
Definition value_attr (v : pyval) (k : string) : option pyval :=
  if bool_decide (k ∈ python_public_attrs v) then
    let method := VObject "builtin_function_or_method" in
    Some match v with
         | VInt z =>
             if bool_decide (k = "real") || bool_decide (k = "numerator") then VInt z
             else if bool_decide (k = "imag") then VInt 0
             else if bool_decide (k = "denominator") then VInt 1
             else method
         | VBool b =>
             if bool_decide (k = "real") || bool_decide (k = "numerator")
             then VInt (if b then 1 else 0)
             else if bool_decide (k = "imag") then VInt 0
             else if bool_decide (k = "denominator") then VInt 1
             else method
         | VFloat x =>
             if bool_decide (k = "real") then VFloat x
             else if bool_decide (k = "imag") then VFloat 0%float
             else method
         | _ => method
         end
  else None.

(** What a walk along attribute names can reach: an object of the
    scene, a struct in the attribute tree of an object (with the names
    that lead to it from the object), or a plain value. *)
Inductive node : Type :=
| NObj (j : nat)
| NRna (j : nat) (inner : list string) (r : rna)
| NVal (v : pyval).

Definition enter (j : nat) (inner : list string) (r : rna) : node :=
  match r with
  | RValue v => NVal v
  | RStruct _ => NRna j inner r
  end.

(** [getattr(n, k)]: the fields of the object, which are attributes of
    every object of the host, then its attribute tree. *)
Definition step (l : list BObject) (n : node) (k : string) : option node :=
  match n with
  | NObj j =>
      match l !! j with
      | None => None
      | Some o =>
          if bool_decide (k = "name") then Some (NVal (VStr (name o)))
          else if bool_decide (k = "type") then Some (NVal (VStr (type_ o)))
          else if bool_decide (k = "hide_render") then Some (NVal (VBool (hide_render o)))
          else if bool_decide (k = "parent") then
            Some match parent o with
                 | Some p => NObj p
                 | None => NVal VNone
                 end
          else if bool_decide (k = "children") then Some (NVal (VObject "tuple"))
          else
            match assoc k (attrs o) with
            | Some (_, r) => Some (enter j [k] r)
            | None => None
            end
      end
  | NRna j inner (RStruct fields) =>
      match assoc k fields with
      | Some (_, r) => Some (enter j (inner ++ [k]) r)
      | None => None
      end
  | NRna _ _ (RValue v) => option_map NVal (value_attr v k)
  | NVal v => option_map NVal (value_attr v k)
  end.

Fixpoint reach (l : list BObject) (n : node) (objY : list string) : option node :=
  match objY with
  | [] => Some n
  | p :: objY' =>
      match step l n p with
      | Some n' => reach l n' objY'
      | None => None
      end
  end.

Definition node_value (n : node) : pyval :=
  match n with
  | NObj _ => VObject "Object"
  | NRna _ _ _ => VObject "bpy_struct"
  | NVal v => v
  end.

Definition store_getattr (l : list BObject) (i : nat) (objY : list string) (k : string) :
  option pyval :=
  match reach l (NObj i) objY with
  | Some n => option_map node_value (step l n k)
  | None => None
  end.

(** Assignment inside the attribute tree of an object: the field has to
    be there, be one the host lets be assigned, and hold a plain
    value. *)
Fixpoint rna_assign (inner : list string) (r : rna) (k : string) (v : pyval) :
  option rna :=
  match r with
  | RValue _ => None
  | RStruct fields =>
      match inner with
      | [] =>
          match assoc k fields with
          | Some (true, RValue _) => Some (RStruct (assoc_set k (true, RValue v) fields))
          | _ => None
          end
      | p :: inner' =>
          match assoc p fields with
          | Some (w, r') =>
              match rna_assign inner' r' k v with
              | Some r'' => Some (RStruct (assoc_set p (w, r'') fields))
              | None => None
              end
          | None => None
          end
      end
  end.

(** [setattr(o, k, v)] on an object: [name] takes a string and the host
    settles the name, [hide_render] takes a boolean or 0 or 1, [parent]
    can be cleared, [type] and [children] are read-only. *)
Definition obj_assign (naming : string -> string) (o : BObject) (k : string) (v : pyval) :
  option BObject :=
  if bool_decide (k = "name") then
    match v with
    | VStr s => Some (set_name (naming s) o)
    | _ => None
    end
  else if bool_decide (k = "type") then None
  else if bool_decide (k = "hide_render") then
    match v with
    | VBool b => Some (set_hide_render b o)
    | VInt 0 => Some (set_hide_render false o)
    | VInt 1 => Some (set_hide_render true o)
    | _ => None
    end
  else if bool_decide (k = "parent") then
    match v with
    | VNone => Some (set_parent None o)
    | _ => None
    end
  else if bool_decide (k = "children") then None
  else
    match assoc k (attrs o) with
    | Some (true, RValue _) => Some (set_attrs (assoc_set k (true, RValue v) (attrs o)) o)
    | _ => None
    end.

Definition store_setattr (naming : list string -> string -> string)
    (l : list BObject) (i : nat) (objY : list string) (k : string) (v : pyval) :
  option (list BObject) :=
  match reach l (NObj i) objY with
  | Some (NObj j) =>
      match l !! j with
      | Some o =>
          match obj_assign (naming (other_names l j)) o k v with
          | Some o' => Some (<[j := o']> l)
          | None => None
          end
      | None => None
      end
  | Some (NRna j (p :: inner) _) =>
      match l !! j with
      | Some o =>
          match assoc p (attrs o) with
          | Some (w, r) =>
              match rna_assign inner r k v with
              | Some r' => Some (<[j := set_attrs (assoc_set p (w, r') (attrs o)) o]> l)
              | None => None
              end
          | None => None
          end
      | None => None
      end
  | _ => None
  end.

(** *** Names *)

Definition is_digit (c : ascii) : bool :=
  Nat.leb 48 (nat_of_ascii c) && Nat.leb (nat_of_ascii c) 57.

Definition all_digits (s : string) : bool :=
  nonempty s && forallb is_digit (list_ascii_of_string s).

(** A name without its number: [Rig.001] is [Rig]. *)
Definition name_base (s : string) : string :=
  let ps := split_on "." s in
  match ps with
  | _ :: _ :: _ => if all_digits (List.last ps EmptyString) then join "." (removelast ps) else s
  | _ => s
  end.

Definition digit (n : nat) : ascii := ascii_of_nat (48 + n mod 10).

Definition number3 (n : nat) : string :=
  String (digit (n / 100)) (String (digit (n / 10)) (String (digit n) EmptyString)).

(** The first of [base.n], [base.(n+1)], ... that is not taken. *)
Fixpoint first_free (others : list string) (base : string) (n fuel : nat) : string :=
  let s := base +:+ "." +:+ number3 n in
  match fuel with
  | 0 => s
  | S fuel' => if bool_decide (s ∈ others) then first_free others base (S n) fuel' else s
  end.

(** The setter of [Object.name]: an empty name becomes [Object], a name
    keeps its first 63 bytes, and a name another object has is numbered
    ([Rig], [Rig.001], [Rig.002], ...). *)
Definition blender_name (others : list string) (s : string) : string :=
  let s := if bool_decide (s = EmptyString) then "Object" else substring 0 63 s in
  if bool_decide (s ∈ others)
  then first_free others (substring 0 59 (name_base s)) 1 (length others)
  else s.

(** *** Regular expressions *)

(** The patterns made of literal characters, [.] and groups of these in
    parentheses; every other pattern is refused. *)
Inductive rx_atom : Type :=
| RxChar (c : ascii)
| RxAny.

Inductive rx_item : Type :=
| RxAtom (a : rx_atom)
| RxGroup (body : list rx_atom).

Definition backslash : ascii := ascii_of_nat 92.

Definition newline : ascii := ascii_of_nat 10.

Definition rx_special (c : ascii) : bool :=
  bool_decide (c ∈ backslash :: list_ascii_of_string "^$*+?{}[]|").

Fixpoint rx_parse (s : string) (group : option (list rx_atom)) (acc : list rx_item) :
  option (list rx_item) :=
  match s with
  | EmptyString =>
      match group with
      | None => Some (rev acc)
      | Some _ => None
      end
  | String c s' =>
      if bool_decide (c = "("%char) then
        match group with
        | None => rx_parse s' (Some []) acc
        | Some _ => None
        end
      else if bool_decide (c = ")"%char) then
        match group with
        | Some g => rx_parse s' None (RxGroup (rev g) :: acc)
        | None => None
        end
      else if rx_special c then None
      else
        let a := if bool_decide (c = "."%char) then RxAny else RxChar c in
        match group with
        | None => rx_parse s' None (RxAtom a :: acc)
        | Some g => rx_parse s' (Some (a :: g)) acc
        end
  end.

Definition atom_matches (a : rx_atom) (c : ascii) : bool :=
  match a with
  | RxChar c' => bool_decide (c = c')
  | RxAny => negb (bool_decide (c = newline))
  end.

(** The text the atoms match at the start of [s], and the rest. *)
Fixpoint match_atoms (atoms : list rx_atom) (s : string) : option (string * string) :=
  match atoms with
  | [] => Some (EmptyString, s)
  | a :: atoms' =>
      match s with
      | EmptyString => None
      | String c s' =>
          if atom_matches a c then
            match match_atoms atoms' s' with
            | Some (t, r) => Some (String c t, r)
            | None => None
            end
          else None
      end
  end.

(** The length of the match at the start of [s], and the text of the
    groups. *)
Fixpoint match_items (items : list rx_item) (s : string) :
  option (nat * list (option string)) :=
  match items with
  | [] => Some (0, [])
  | RxAtom a :: items' =>
      match match_atoms [a] s with
      | Some (t, r) =>
          match match_items items' r with
          | Some (n, gs) => Some (String.length t + n, gs)
          | None => None
          end
      | None => None
      end
  | RxGroup body :: items' =>
      match match_atoms body s with
      | Some (t, r) =>
          match match_items items' r with
          | Some (n, gs) => Some (String.length t + n, Some t :: gs)
          | None => None
          end
      | None => None
      end
  end.

(** The matches in [s], left to right and not overlapping; a pattern
    that matches the empty text matches at every position. *)
Fixpoint rx_scan (items : list rx_item) (skip pos : nat) (s : string) : list Match :=
  match s with
  | EmptyString =>
      match skip, match_items items s with
      | 0, Some (n, gs) => [ {| m_start := pos; m_end := pos + n; m_groups := gs |} ]
      | _, _ => []
      end
  | String _ s' =>
      match skip with
      | 0 =>
          match match_items items s with
          | Some (n, gs) =>
              {| m_start := pos; m_end := pos + n; m_groups := gs |}
                :: rx_scan items (n - 1) (S pos) s'
          | None => rx_scan items 0 (S pos) s'
          end
      | S k => rx_scan items k (S pos) s'
      end
  end.

(** A replacement template: literal text and references [\1] to [\9]
    to the groups; every other use of the backslash is refused. *)
Inductive tpl_item : Type :=
| TplChar (c : ascii)
| TplGroup (n : nat).

Definition starts_with_digit (s : string) : bool :=
  match s with
  | String c _ => is_digit c
  | EmptyString => false
  end.

Fixpoint tpl_parse (s : string) : option (list tpl_item) :=
  match s with
  | EmptyString => Some []
  | String c rest =>
      if bool_decide (c = backslash) then
        match rest with
        | String d rest' =>
            if is_digit d && negb (bool_decide (d = "0"%char)) && negb (starts_with_digit rest')
            then option_map (cons (TplGroup (nat_of_ascii d - 48))) (tpl_parse rest')
            else None
        | EmptyString => None
        end
      else option_map (cons (TplChar c)) (tpl_parse rest)
  end.

Definition tpl_group (t : tpl_item) : nat :=
  match t with
  | TplChar _ => 0
  | TplGroup n => n
  end.

Fixpoint tpl_expand (tpl : list tpl_item) (groups : list (option string)) : string :=
  match tpl with
  | [] => EmptyString
  | TplChar c :: tpl' => String c (tpl_expand tpl' groups)
  | TplGroup n :: tpl' =>
      match groups !! (n - 1) with
      | Some (Some t) => t +:+ tpl_expand tpl' groups
      | _ => tpl_expand tpl' groups
      end
  end.

Definition rx_groups (items : list rx_item) : nat :=
  length (List.filter (fun x => match x with RxGroup _ => true | RxAtom _ => false end) items).

Definition demo_finditer (pattern s : string) : option (list Match) :=
  match rx_parse pattern None [] with
  | Some items => Some (rx_scan items 0 0 s)
  | None => None
  end.

(** A template that refers to a group the pattern does not have is
    refused. *)
Definition demo_template (pattern repl : string) : option (Match -> string) :=
  match rx_parse pattern None [], tpl_parse repl with
  | Some items, Some tpl =>
      if forallb (fun t => Nat.leb (tpl_group t) (rx_groups items)) tpl
      then Some (fun m => tpl_expand tpl (m_groups m))
      else None
  | _, _ => None
  end.

(** *** Files *)

(** Writing the log: the file opens when its directory is there. *)
Definition demo_dump_json_file (paths : list Path) (f : pyval) (d : pydict) : option exn :=
  match f with
  | VStr s =>
      let dir := path_parent (parse_path s) in
      if bool_decide (s = EmptyString) then Some (OSError "No such file or directory")
      else if bool_decide (parts dir = []) || bool_decide (dir ∈ paths) then None
      else Some (OSError "No such file or directory")
  | _ => Some (TypeError "expected str, bytes or os.PathLike object")
  end.

Definition python_typename (v : pyval) : string :=
  match v with
  | VNone => "NoneType"
  | VBool _ => "bool"
  | VInt _ => "int"
  | VFloat _ => "float"
  | VStr _ => "str"
  | VList _ => "list"
  | VDict _ => "dict"
  | VObject s => s
  end.

Definition demo_host : Host :=
  {| CheckConfigType := fun dic sDti =>
       match dict_get dic "sDTI" with
       | Some v => is_str v sDti
       | None => false
       end;
     ToTypename := python_typename;
     re_finditer := demo_finditer;
     re_template := demo_template;
     IsObjectInside := fun _ _ _ _ => true;
     IsObjectOutside := fun _ _ _ _ => false;
     IsObjectIntersect := fun _ _ _ _ => false;
     json_loads := fun _ => None;
     CEnableIfBoundBoxParams_cls :=
       [("sTarget", VObject "CParamFields"); ("sRelation", VObject "CParamFields")];
     CLogObjectParams_cls :=
       [("lAttributes", VList [VStr "name"]); ("sLogFile", VNone)];
     unique_name := blender_name;
     py_getattr := store_getattr;
     py_setattr := store_setattr blender_name;
     dump_json_file := demo_dump_json_file;
     recursion_limit := 1000 |}.

(** A rig with a camera, a body below the rig and a wheel below the
    body, and a lamp on its own. *)
Definition demo_rig : BObject :=
  {| name := "Rig"; type_ := "EMPTY"; hide_render := false; parent := None;
     props := {[ "speed" := VInt 3 ]};
     attrs := [("location", (true, RStruct [("x", (true, RValue (VInt 0)));
                                            ("y", (false, RValue (VInt 0)))]))] |}.

Definition demo_wheel : BObject :=
  {| name := "Wheel"; type_ := "MESH"; hide_render := true; parent := Some 1;
     props := ∅; attrs := [] |}.

Definition demo_lamp : BObject :=
  {| name := "Lamp"; type_ := "LIGHT"; hide_render := false; parent := None;
     props := ∅; attrs := [] |}.

Definition demo_objects : list BObject :=
  [ demo_rig;
    {| name := "Body"; type_ := "MESH"; hide_render := false; parent := Some 0;
       props := ∅; attrs := [] |};
    demo_wheel;
    demo_lamp;
    {| name := "Cam"; type_ := "CAMERA"; hide_render := false; parent := None;
       props := ∅; attrs := [] |} ].

Definition demo_state : State :=
  {| g_bInBlenderContext := true;
     objects := demo_objects;
     blend_dir := {| absolute := true; parts := ["home"; "scenes"] |};
     fs := [ {| absolute := true; parts := ["home"] |};
             {| absolute := true; parts := ["home"; "scenes"] |} ];
     calls := [] |}.

Definition dti (s : string) : pyval * pyval := (VStr "sDTI", VStr s).

(** ** Notions the properties are stated with *)

(** A field's default has the field's type, or the field is required. *)
Definition default_typed (f : ParamField) : Prop :=
  match pf_default f with
  | Some d => isinstance d (pf_type f) = true
  | None => pf_required f = true
  end.

Definition field_sSearch : ParamField :=
  {| pf_name := "sSearch"; pf_type := TStr; pf_required := false;
     pf_default := Some (VStr EmptyString); pf_deprecated := [] |}.

(** A configuration for [ModifyProperties]: set the custom property
    [speed] to 5. *)
Definition demo_properties_config : pydict :=
  [ dti "/catharsys/blender/modify/object/properties:1.0";
    (VStr "mValues", VDict [(VStr "speed", VInt 5)]) ].

(** Items of a values map for [ModifyAttributes] and for
    [ModifyProperties]; in each the second entry fails. *)
Definition demo_attribute_items : pydict :=
  [ (VStr "location.x", VInt 5); (VStr "location.y", VInt 5) ].

Definition demo_property_items : pydict :=
  [ (VStr "speed", VInt 5); (VStr "gear", VInt 1) ].

(** [below l i j]: the object [j] is [i] or a descendant of [i]. *)
Inductive below (l : list BObject) (i : nat) : nat -> Prop :=
| below_self : below l i i
| below_child (j p : nat) (o : BObject) :
    l !! j = Some o -> parent o = Some p -> below l i p -> below l i j.

(** The hierarchy has no cycle: some measure [h] grows from every
    object to its parent. *)
Definition acyclic (l : list BObject) (h : nat -> nat) : Prop :=
  forall j o p, l !! j = Some o -> parent o = Some p -> h j < h p.

(** [o'] is [o] but for the flag [hide_render], and but for the
    name. *)
Definition same_but_hide_render (o o' : BObject) : Prop :=
  name o' = name o /\ type_ o' = type_ o /\ parent o' = parent o /\
  props o' = props o /\ attrs o' = attrs o.

Definition same_but_name (o o' : BObject) : Prop :=
  type_ o' = type_ o /\ hide_render o' = hide_render o /\ parent o' = parent o /\
  props o' = props o /\ attrs o' = attrs o.

(** [lx] is [l] with [hide_render] set to [b] on some objects, all of
    them among [P], and nothing else changed. *)
Definition touched (l : list BObject) (b : bool) (P : nat -> Prop) (lx : list BObject) : Prop :=
  length lx = length l /\
  forall j o, l !! j = Some o ->
    lx !! j = Some o \/ (P j /\ lx !! j = Some (set_hide_render b o)).

(** In [lx], [hide_render] is [b] on all objects among [P], which are
    otherwise as in [l]. *)
Definition covered (l : list BObject) (b : bool) (P : nat -> Prop) (lx : list BObject) : Prop :=
  forall j o, l !! j = Some o -> P j -> lx !! j = Some (set_hide_render b o).

(** A configuration for [Enable]. *)
Definition demo_enable_config (xValue : bool) : pydict :=
  [ dti "/catharsys/blender/modify/object/enable:1.0"; (VStr "xValue", VBool xValue) ].

(** Heights in [demo_objects]. *)
Definition demo_height (j : nat) : nat :=
  match j with
  | 0 => 2
  | 1 => 1
  | _ => 0
  end.

(** A chain of [n] objects, each the parent of the next, and the demo
    state with a chain of 1001 objects as its scene. *)
Definition chain_link (k : nat) : BObject :=
  {| name := "Link" +:+ pretty k; type_ := "EMPTY"; hide_render := false;
     parent := match k with 0 => None | S k' => Some k' end;
     props := ∅; attrs := [] |}.

Definition chain (n : nat) : list BObject := chain_link <$> seq 0 n.

Definition deep_state : State :=
  {| g_bInBlenderContext := true;
     objects := chain 1001;
     blend_dir := blend_dir demo_state;
     fs := fs demo_state;
     calls := [] |}.

(** [l] is a chain: every object but the first has the one before it as
    parent. *)
Definition chained (l : list BObject) : Prop :=
  forall j o, l !! j = Some o -> parent o = match j with 0 => None | S j' => Some j' end.

(** A run of [_EnableRender] on [i] that succeeds with [hide_render]
    set on the objects below [i], on those only, and nothing else
    changed. *)
Definition runs_on (_bEnable : pyval) (fuel i : nat) (st : State) : Prop :=
  exists l',
    _EnableRender fuel i _bEnable true st = (Ok tt, set_objects l' st) /\
    touched (objects st) (negb (truthy _bEnable)) (below (objects st) i) l' /\
    covered (objects st) (negb (truthy _bEnable)) (below (objects st) i) l'.

(** Configurations for [RenameObject]: a literal new name, and a
    substitution. *)
Definition demo_rename_literal : pydict :=
  [ dti "/catharsys/blender/modify/object/rename:1.0";
    (VStr "sReplace", VStr "Tyre"); (VStr "sSearch", VStr "e") ].

Definition demo_rename_regex : pydict :=
  [ dti "/catharsys/blender/modify/object/rename:1.0";
    (VStr "sReplace", VStr "X"); (VStr "bUseRegEx", VBool true);
    (VStr "sSearch", VStr "e") ].


Definition demo_rename_taken : pydict :=
  [ dti "/catharsys/blender/modify/object/rename:1.0"; (VStr "sReplace", VStr "Rig") ].


Definition demo_rename_no_search : pydict :=
  [ dti "/catharsys/blender/modify/object/rename:1.0";
    (VStr "sReplace", VStr "X"); (VStr "bUseRegEx", VBool true) ].

(** A configuration for [ParentToObject]. *)
Definition demo_parent_config : pydict :=
  [ dti "/catharsys/blender/modify/object/parent:1.0";
    (VStr "sParentObject", VStr "Rig"); (VStr "bKeepTransform", VBool true) ].

(** A configuration for [ExportObjectObj]. *)
Definition demo_export_config : pydict :=
  [ dti "/catharsys/blender/modify/object/export/obj:1.0";
    (VStr "sFilePath", VStr "out/../exp/a/mesh.obj"); (VStr "bCreatePath", VBool true) ].

(** Two configurations for [EnableIfBoundBox] that differ in every
    parameter. *)
Definition demo_boundbox_config_1 : pydict :=
  [ dti "/catharsys/blender/modify/object/enable-if/bound-box:1.0";
    (VStr "sTarget", VStr "Rig"); (VStr "sRelation", VStr "INSIDE") ].

Definition demo_boundbox_config_2 : pydict :=
  [ dti "/catharsys/blender/modify/object/enable-if/bound-box:1.0";
    (VStr "sTarget", VStr "Lamp"); (VStr "bCompoundTarget", VBool true);
    (VStr "fBorder", VInt 2); (VStr "sRelation", VStr "OUTSIDE") ].

(** A host whose class objects hold usable values: the target is the
    rig, the relation is [INSIDE], and two attributes are logged to a
    file. *)
Definition demo_host_values : Host :=
  {| CheckConfigType := CheckConfigType demo_host;
     ToTypename := python_typename;
     re_finditer := re_finditer demo_host;
     re_template := re_template demo_host;
     IsObjectInside := fun _ _ _ _ => true;
     IsObjectOutside := fun _ _ _ _ => false;
     IsObjectIntersect := fun _ _ _ _ => false;
     json_loads := fun _ => None;
     CEnableIfBoundBoxParams_cls :=
       [("sTarget", VStr "Rig"); ("bCompoundTarget", VBool false);
        ("fBorder", VFloat 0%float); ("sRelation", VStr "INSIDE")];
     CLogObjectParams_cls :=
       [("lAttributes", VList [VStr "name"; VStr "speed"]);
        ("sLogFile", VStr "log.json")];
     unique_name := unique_name demo_host;
     py_getattr := py_getattr demo_host;
     py_setattr := py_setattr demo_host;
     dump_json_file := dump_json_file demo_host;
     recursion_limit := recursion_limit demo_host |}.


(** What [LogObject] logs for the name [a] on the object [o], which is
    the object [i] of the scene [l]: the custom property of that name
    if there is one, else the attribute; parsed as JSON when it parses,
    else as it is.  [None] when the object has neither. *)
Definition logged_value (H : Host) (l : list BObject) (i : nat) (o : BObject) (a : string) :
  option pyval :=
  let parsed x := match json_loads H x with Some y => y | None => x end in
  match props o !! a with
  | Some v => Some (parsed v)
  | None => option_map parsed (py_getattr H l i [] a)
  end.

(** Configurations for [ModifyAttributes] with the given values map,
    under the key [mValues] and under the deprecated key [dValues]. *)
Definition demo_attributes_config (items : pydict) : pydict :=
  [ dti "/catharsys/blender/modify/object/attributes:1.0"; (VStr "mValues", VDict items) ].

Definition demo_attributes_config_deprecated (items : pydict) : pydict :=
  [ dti "/catharsys/blender/modify/object/attributes:1.0"; (VStr "dValues", VDict items) ].

Definition sReplace_not_given : exn :=
  RuntimeError (Msg "Element 'sReplace' not given in object rename modifier" []).

(** A second literal configuration for [RenameObject]. *)
Definition demo_rename_literal_2 : pydict :=
  [ dti "/catharsys/blender/modify/object/rename:1.0"; (VStr "sReplace", VStr "Spare") ].

(** * Properties *)

(** ** The monad *)

Lemma bind_ok {A B : Type} (m : M A) (f : A -> M B) (st st' : State) (a : A) :
  m st = (Ok a, st') -> bind m f st = f a st'.
Proof. intros E. unfold bind. now rewrite E. Qed.

Lemma set_objects_same (st : State) : set_objects (objects st) st = st.
Proof. now destruct st. Qed.


Lemma get_obj_some (i : nat) (o : BObject) (st : State) :
  objects st !! i = Some o -> get_obj i st = (Ok o, st).
Proof. intros E. unfold get_obj. now rewrite E. Qed.

Lemma upd_obj_some (i : nat) (f : BObject -> BObject) (o : BObject) (st : State) :
  objects st !! i = Some o ->
  upd_obj i f st = (Ok tt, set_objects (<[i := f o]> (objects st)) st).
Proof. intros E. unfold upd_obj, bind. now rewrite (get_obj_some _ _ _ E). Qed.


Ltac differ := let E := fresh in intros E; simpl in E; discriminate E.

(** ** Parameter classes *)

Lemma init_field_isinstance (dic : pydict) (f : ParamField) (v : pyval) :
  default_typed f -> init_field dic f = Ok v -> isinstance v (pf_type f) = true.
Proof.
  unfold default_typed, init_field. intros Hd.
  destruct (dict_get_any dic (pf_name f :: pf_deprecated f)) as [w|].
  - destruct (isinstance w (pf_type f)) eqn:E; congruence.
  - destruct (pf_default f) as [d|]; [congruence|].
    rewrite Hd. discriminate.
Qed.

Lemma isinstance_str (v : pyval) : isinstance v TStr = true -> exists s, v = VStr s.
Proof. destruct v; try discriminate. eauto. Qed.

Lemma isinstance_bool (v : pyval) : isinstance v TBool = true -> exists b, v = VBool b.
Proof. destruct v; try discriminate. eauto. Qed.

Lemma isinstance_dict (v : pyval) : isinstance v TDict = true -> exists d, v = VDict d.
Proof. destruct v; try discriminate. eauto. Qed.

(** The instance has the declared fields, in order, each as
    [init_field] gives it. *)
Lemma paramclass_init_fields (schema : list ParamField) (dic : pydict) (mp : params) :
  paramclass_init schema dic = Ok mp ->
  Forall2 (fun f kv => fst kv = pf_name f /\ init_field dic f = Ok (snd kv)) schema mp.
Proof.
  revert mp. induction schema as [|f schema IH]; simpl; intros mp E.
  - injection E as <-. constructor.
  - destruct (init_field dic f) as [v|] eqn:Ef; [|discriminate]. simpl in E.
    destruct (paramclass_init schema dic) as [r|]; [|discriminate]. simpl in E.
    injection E as <-. constructor; auto.
Qed.

Lemma paramclass_init_raise (schema : list ParamField) (dic : pydict) (e : exn) :
  paramclass_init schema dic = Raise e -> exists f w, e = ParamError f w.
Proof.
  induction schema as [|f schema IH]; simpl; [discriminate|].
  unfold init_field at 1.
  destruct (dict_get_any dic (pf_name f :: pf_deprecated f)) as [v|].
  - destruct (isinstance v (pf_type f)); simpl.
    + destruct (paramclass_init schema dic); simpl; [discriminate|].
      intros [= <-]. now apply IH.
    + intros [= <-]. eauto.
  - destruct (pf_default f) as [d|]; simpl.
    + destruct (paramclass_init schema dic); simpl; [discriminate|].
      intros [= <-]. now apply IH.
    + destruct (pf_required f); simpl.
      * intros [= <-]. eauto.
      * destruct (paramclass_init schema dic); simpl; [discriminate|].
        intros [= <-]. now apply IH.
Qed.

Lemma paramclass_init_lookup (schema : list ParamField) (dic : pydict) (mp : params)
    (f : ParamField) :
  paramclass_init schema dic = Ok mp ->
  NoDup (pf_name <$> schema) -> f ∈ schema ->
  getattr_param mp (pf_name f) = init_field dic f.
Proof.
  revert mp. induction schema as [|g schema IH]; simpl; intros mp E Hnd Hin.
  - now apply elem_of_nil in Hin.
  - destruct (init_field dic g) as [v|] eqn:Eg; [|discriminate]. simpl in E.
    destruct (paramclass_init schema dic) as [r|] eqn:Er; [|discriminate]. simpl in E.
    injection E as <-. apply NoDup_cons in Hnd as [Hg Hnd].
    unfold getattr_param. simpl. apply elem_of_cons in Hin as [->|Hin].
    + now rewrite bool_decide_eq_true_2.
    + rewrite bool_decide_eq_false_2.
      * now apply (IH r).
      * intros Heq. apply Hg. rewrite Heq. now apply list_elem_of_fmap_2.
Qed.

Ltac run_params :=
  repeat match goal with
  | |- context [getattr_param ?mp ?k] =>
      let v := eval vm_compute in (getattr_param mp k) in
      change (getattr_param mp k) with v
  end.

Ltac open_params Hinit :=
  apply paramclass_init_fields in Hinit;
  repeat match goal with
  | Hf : Forall2 _ (_ :: _) _ |- _ =>
      apply Forall2_cons_inv_l in Hf;
      destruct Hf as ([? ?] & ? & [? ?] & ? & ->); simpl in *; subst
  | Hf : Forall2 _ [] _ |- _ => apply Forall2_nil_inv_l in Hf; subst
  end.

Ltac typed_params Hinit :=
  let Hf := fresh "Hf" in
  pose proof Hinit as Hf; open_params Hf;
  repeat match goal with
  | Hi : init_field _ _ = Ok _ |- _ =>
      apply init_field_isinstance in Hi; [|done]; simpl in Hi
  end;
  repeat match goal with
  | Hi : isinstance _ TStr = true |- _ => apply isinstance_str in Hi; destruct Hi as [? ->]
  | Hi : isinstance _ TBool = true |- _ => apply isinstance_bool in Hi; destruct Hi as [? ->]
  | Hi : isinstance _ TDict = true |- _ => apply isinstance_dict in Hi; destruct Hi as [? ->]
  end.

Lemma CRenameObjectParams_init (dic : pydict) (mp : params) :
  paramclass_init CRenameObjectParams dic = Ok mp ->
  exists sDTI sReplace bUseRegEx sSearch,
    mp = [("sDTI", VStr sDTI); ("sReplace", VStr sReplace);
          ("bUseRegEx", VBool bUseRegEx); ("sSearch", VStr sSearch)].
Proof. intros Hinit. unfold CRenameObjectParams in Hinit. typed_params Hinit. eauto 10. Qed.

Lemma CEnableParams_init (dic : pydict) (mp : params) :
  paramclass_init CEnableParams dic = Ok mp ->
  exists sDTI xValue, mp = [("sDTI", VStr sDTI); ("xValue", VBool xValue)].
Proof. intros Hinit. unfold CEnableParams in Hinit. typed_params Hinit. eauto 10. Qed.

Lemma CModifyAttributesParams_init (dic : pydict) (mp : params) :
  paramclass_init CModifyAttributesParams dic = Ok mp ->
  exists sDTI mValues, mp = [("sDTI", VStr sDTI); ("mValues", VDict mValues)].
Proof. intros Hinit. unfold CModifyAttributesParams in Hinit. typed_params Hinit. eauto 10. Qed.

Lemma CParentToObjectParams_init (dic : pydict) (mp : params) :
  paramclass_init CParentToObjectParams dic = Ok mp ->
  exists sDTI sParentObject bKeepTransform bSkipNonexistingParent,
    mp = [("sDTI", VStr sDTI); ("sParentObject", VStr sParentObject);
          ("bKeepTransform", VBool bKeepTransform);
          ("bSkipNonexistingParent", VBool bSkipNonexistingParent)].
Proof. intros Hinit. unfold CParentToObjectParams in Hinit. typed_params Hinit. eauto 10. Qed.

Lemma CExportObjectObjParams_init (dic : pydict) (mp : params) :
  paramclass_init CExportObjectObjParams dic = Ok mp ->
  exists sDTI sFilePath bCreatePath,
    mp = [("sDTI", VStr sDTI); ("sFilePath", VStr sFilePath);
          ("bCreatePath", VBool bCreatePath)].
Proof. intros Hinit. unfold CExportObjectObjParams in Hinit. typed_params Hinit. eauto 10. Qed.

(** ** The model on concrete inputs *)

Example split_on_dotted_key : split_on "." "data.lens" = ["data"; "lens"].
Proof. reflexivity. Qed.

Example split_on_dots_at_the_ends :
  split_on "." ".a." = [EmptyString; "a"; EmptyString].
Proof. reflexivity. Qed.

Example MakeNormPath_str_dots :
  MakeNormPath_str "out/../exp/./a//mesh.obj"
  = {| absolute := false; parts := ["exp"; "a"; "mesh.obj"] |}.
Proof. reflexivity. Qed.

Example export_path_relative :
  export_path "exp/mesh.obj" (blend_dir demo_state)
  = {| absolute := true; parts := ["home"; "scenes"; "exp"; "mesh.obj"] |}.
Proof. reflexivity. Qed.

Example export_path_absolute :
  export_path "/tmp/mesh.obj" (blend_dir demo_state)
  = {| absolute := true; parts := ["tmp"; "mesh.obj"] |}.
Proof. reflexivity. Qed.

Example re_sub_literal_pattern :
  re_sub demo_host (VStr "e") (VStr "X") (VStr "Wheel") = Ok (VStr "WhXXl").
Proof. reflexivity. Qed.

Example re_sub_empty_pattern :
  re_sub demo_host (VStr EmptyString) (VStr "X") (VStr "ab") = Ok (VStr "XaXbX").
Proof. reflexivity. Qed.

Example children_of_rig : children demo_objects 0 = [1].
Proof. reflexivity. Qed.

Example re_sub_groups :
  re_sub demo_host (VStr "(.)(.)") (VStr "\2\1") (VStr "abcde") = Ok (VStr "badce").
Proof. reflexivity. Qed.

Example re_sub_unknown_group :
  re_sub demo_host (VStr "(a)") (VStr "\2") (VStr "ab") = Raise ReError.
Proof. reflexivity. Qed.

Example blender_name_taken : blender_name ["Rig"; "Rig.001"] "Rig" = "Rig.002".
Proof. reflexivity. Qed.

Example blender_name_empty : blender_name ["Rig"] EmptyString = "Object".
Proof. reflexivity. Qed.

Example ModifyAttributes_missing_segment :
  ModifyAttributes demo_host 0
    [ dti "/catharsys/blender/modify/object/attributes:1.0";
      (VStr "mValues", VDict [(VStr "location.z.w", VInt 5)]) ]
    demo_state
  = (Raise (RuntimeError (Msg "Object '{}' has no attribute '{}'"
                              [VStr "Rig.location"; VStr "z"])),
     demo_state).
Proof. reflexivity. Qed.

Example ModifyAttributes_method_of_a_value :
  ModifyAttributes_entry demo_host 0 (VStr "name.upper", VInt 5) demo_state
  = (Raise (Exception_ (Msg "Could not set attribute '{}' of object '{}' to value: {} "
                            [VStr "name.upper"; VStr "Rig"; VInt 5])),
     demo_state).
Proof. reflexivity. Qed.

Example ModifyAttributes_hide_render_as_int :
  hide_render <$>
    objects (snd (ModifyAttributes_entry demo_host 0 (VStr "hide_render", VInt 1) demo_state))
  = [true; false; true; false; false].
Proof. reflexivity. Qed.

Example ModifyAttributes_through_parent :
  hide_render <$>
    objects (snd (ModifyAttributes_entry demo_host 2 (VStr "parent.hide_render", VBool true)
                    demo_state))
  = [false; true; true; false; false].
Proof. reflexivity. Qed.

Example ModifyProperties_int_too_large :
  ModifyProperties_entry demo_host 0 (VStr "speed", VInt (2 ^ 31)) demo_state
  = (Raise (OverflowError "Python int too large to convert to C int"), demo_state).
Proof. reflexivity. Qed.

Example ModifyProperties_loop_assigns :
  (fun st => props <$> (objects st !! 0))
    (snd (ModifyProperties_loop demo_host 0 [(VStr "speed", VInt 5)] demo_state))
  = Some {[ "speed" := VInt 5 ]}.
Proof. reflexivity. Qed.

Example Enable_hides_the_rig :
  hide_render <$> objects (snd (Enable demo_host 0 (demo_enable_config false) demo_state))
  = [true; true; true; false; false].
Proof. reflexivity. Qed.

(** ** RenameObject *)



(** The tests on the parameters of an instance, evaluated. *)
Ltac rename_steps :=
  cbv beta iota;
  repeat match goal with
  | |- context [is_None (VStr ?x)] => change (is_None (VStr x)) with false
  | |- context [truthy (VBool ?x)] => change (truthy (VBool x)) with x
  end;
  unfold ret; cbv beta iota.

Lemma assign_name_run (H : Host) (i : nat) (o : BObject) (s : string) (st : State) :
  objects st !! i = Some o ->
  assign_name H i (VStr s) st
  = (Ok tt,
     set_objects
       (<[i := set_name (unique_name H (other_names (objects st) i) s) o]> (objects st)) st).
Proof. intros Ho. unfold assign_name, bind, gets. now apply upd_obj_some. Qed.

Lemma same_but_name_set_name (s : string) (o : BObject) : same_but_name o (set_name s o).
Proof. now repeat split. Qed.

(** C3: with [bUseRegEx] false, [RenameObject] succeeds, whatever the
    name was before and whatever [sSearch] is: the string [sReplace] of
    the configuration is handed to the setter of the object's name, the
    object ends with the name the host settles on for it, which is
    [sReplace] itself whenever the host keeps the name it is given, and
    nothing else of the object or of the scene changes. *)
Theorem RenameObject_literal (H : Host) (i : nat) (o : BObject) (dic : pydict)
    (mp : params) (st : State) :
  objects st !! i = Some o ->
  paramclass_init CRenameObjectParams dic = Ok mp ->
  getattr_param mp "bUseRegEx" = Ok (VBool false) ->
  exists sReplace o',
    getattr_param mp "sReplace" = Ok (VStr sReplace) /\
    RenameObject H i dic st = (Ok tt, set_objects (<[i := o']> (objects st)) st) /\
    name o' = unique_name H (other_names (objects st) i) sReplace /\
    same_but_name o o' /\
    (unique_name H (other_names (objects st) i) sReplace = sReplace -> name o' = sReplace).
Proof.
  intros Ho Hinit Hre.
  destruct (CRenameObjectParams_init _ _ Hinit) as (d & r & b & s & ->).
  vm_compute in Hre. injection Hre as ->.
  exists r, (set_name (unique_name H (other_names (objects st) i) r) o).
  split; [reflexivity|]. split; [|split; [reflexivity|split]].
  - unfold RenameObject, bind, lift. rewrite Hinit, (get_obj_some _ _ _ Ho).
    run_params. rename_steps.
    now apply assign_name_run.
  - apply same_but_name_set_name.
  - now intros ->.
Qed.

Lemma RenameObject_literal_witness :
  objects demo_state !! 2 = Some demo_wheel /\
  paramclass_init CRenameObjectParams demo_rename_literal
  = Ok [("sDTI", VStr "/catharsys/blender/modify/object/rename:1.0");
        ("sReplace", VStr "Tyre"); ("bUseRegEx", VBool false); ("sSearch", VStr "e")] /\
  fst (RenameObject demo_host 2 demo_rename_literal demo_state) = Ok tt /\
  name <$> objects (snd (RenameObject demo_host 2 demo_rename_literal demo_state)) !! 2
  = Some "Tyre".
Proof.
  split; [reflexivity|]. split; [reflexivity|].
  destruct (RenameObject_literal demo_host 2 demo_wheel demo_rename_literal
              [("sDTI", VStr "/catharsys/blender/modify/object/rename:1.0");
               ("sReplace", VStr "Tyre"); ("bUseRegEx", VBool false); ("sSearch", VStr "e")]
              demo_state eq_refl eq_refl eq_refl) as (r & o' & Hr & Hrun & Hname & _ & _).
  vm_compute in Hr. injection Hr as <-.
  rewrite Hrun. split; [reflexivity|].
  change (name <$> <[2 := o']> demo_objects !! 2 = Some "Tyre").
  simpl. now rewrite Hname.
Defined.

(** C3, as the specification words it, fails when the new name is
    taken: the wheel renamed to [Rig] in a scene that has a [Rig] ends
    as [Rig.001]. *)
Lemma RenameObject_literal_name_taken :
  getattr_param
    [("sDTI", VStr "/catharsys/blender/modify/object/rename:1.0");
     ("sReplace", VStr "Rig"); ("bUseRegEx", VBool false); ("sSearch", VStr EmptyString)]
    "sReplace" = Ok (VStr "Rig") /\
  paramclass_init CRenameObjectParams demo_rename_taken
  = Ok [("sDTI", VStr "/catharsys/blender/modify/object/rename:1.0");
        ("sReplace", VStr "Rig"); ("bUseRegEx", VBool false); ("sSearch", VStr EmptyString)] /\
  fst (RenameObject demo_host 2 demo_rename_taken demo_state) = Ok tt /\
  name <$> objects (snd (RenameObject demo_host 2 demo_rename_taken demo_state)) !! 2
  = Some "Rig.001" /\
  name <$> objects (snd (RenameObject demo_host 2 demo_rename_taken demo_state)) !! 2
  <> Some "Rig".
Proof.
  split; [reflexivity|]. split; [reflexivity|]. split; [reflexivity|].
  split; [reflexivity|]. intros E. vm_compute in E. discriminate E.
Qed.




Lemma CRenameObjectParams_nodup : NoDup (pf_name <$> CRenameObjectParams).
Proof. apply (bool_decide_unpack _). vm_compute. exact I. Qed.

(** C10: [sSearch] of an instance is always a string, since the field
    has the empty string as default; so [RenameObject] never raises the
    error for a missing [sSearch], on any configuration and any scene.
    With [bUseRegEx] true and no [sSearch] in the configuration, the
    pattern is the empty string and the name is substituted with
    it. *)
Theorem RenameObject_sSearch_never_None (H : Host) (i : nat) (dic : pydict) (st : State) :
  (forall mp, paramclass_init CRenameObjectParams dic = Ok mp ->
     exists sSearch, getattr_param mp "sSearch" = Ok (VStr sSearch)) /\
  (forall st', RenameObject H i dic st <> (Raise sSearch_not_given, st')) /\
  (forall mp o,
     objects st !! i = Some o ->
     paramclass_init CRenameObjectParams dic = Ok mp ->
     getattr_param mp "bUseRegEx" = Ok (VBool true) ->
     dict_get dic "sSearch" = None ->
     exists sReplace,
       getattr_param mp "sReplace" = Ok (VStr sReplace) /\
       getattr_param mp "sSearch" = Ok (VStr EmptyString) /\
       RenameObject H i dic st
       = bind (lift (re_sub H (VStr EmptyString) (VStr sReplace) (VStr (name o))))
              (assign_name H i) st).
Proof.
  split; [|split].
  - intros mp Hinit.
    destruct (CRenameObjectParams_init _ _ Hinit) as (d & r & b & s & ->).
    now exists s.
  - intros st'. unfold RenameObject, bind, lift.
    destruct (paramclass_init CRenameObjectParams dic) as [mp|] eqn:Hinit.
    2: { destruct (paramclass_init_raise _ _ _ Hinit) as (f & w & ->). differ. }
    destruct (CRenameObjectParams_init _ _ Hinit) as (d & r & b & s & ->).
    unfold get_obj. destruct (objects st !! i) as [o|]; [|differ].
    run_params. simpl.
    destruct b; simpl.
    + destruct (re_finditer H s (name o)); [|differ].
      destruct (re_template H s r); [|differ].
      unfold assign_name, upd_obj, bind, gets, get_obj, put_obj, modify.
      destruct (objects st !! i); differ.
    + unfold assign_name, upd_obj, bind, gets, get_obj, put_obj, modify.
      destruct (objects st !! i); differ.
  - intros mp o Ho Hinit Hre Habsent.
    destruct (CRenameObjectParams_init _ _ Hinit) as (d & r & b & s & ->).
    vm_compute in Hre. injection Hre as ->.
    assert (s = EmptyString) as ->.
    { pose proof (paramclass_init_lookup _ _ _ field_sSearch Hinit) as Hs.
      unfold init_field in Hs. simpl in Hs. rewrite Habsent in Hs.
      vm_compute in Hs. specialize (Hs CRenameObjectParams_nodup ltac:(repeat constructor)).
      congruence. }
    exists r. split; [reflexivity|]. split; [reflexivity|].
    unfold RenameObject, bind, lift. rewrite Hinit, (get_obj_some _ _ _ Ho).
    run_params. reflexivity.
Qed.

Lemma RenameObject_sSearch_never_None_witness :
  objects demo_state !! 2 = Some demo_wheel /\
  paramclass_init CRenameObjectParams demo_rename_no_search
  = Ok [("sDTI", VStr "/catharsys/blender/modify/object/rename:1.0");
        ("sReplace", VStr "X"); ("bUseRegEx", VBool true); ("sSearch", VStr EmptyString)] /\
  dict_get demo_rename_no_search "sSearch" = None /\
  RenameObject demo_host 2 demo_rename_no_search demo_state
  = (Ok tt,
     set_objects (<[2 := set_name "XWXhXeXeXlX" demo_wheel]> (objects demo_state)) demo_state).
Proof.
  split; [reflexivity|]. split; [reflexivity|]. split; [reflexivity|].
  destruct (RenameObject_sSearch_never_None demo_host 2 demo_rename_no_search demo_state)
    as (_ & _ & Hempty).
  destruct (Hempty _ demo_wheel eq_refl eq_refl eq_refl eq_refl) as (r & Hr & _ & Hrun).
  vm_compute in Hr. injection Hr as <-.
  rewrite Hrun. reflexivity.
Defined.


(** ** Loops over the values map *)

Lemma for_each_raise {A : Type} (body : A -> M unit) (l : list A) (st st' : State) (e : exn) :
  for_each l body st = (Raise e, st') ->
  exists n x st1,
    l !! n = Some x /\
    for_each (take n l) body st = (Ok tt, st1) /\
    body x st1 = (Raise e, st').
Proof.
  revert st. induction l as [|x l IH]; simpl; intros st E.
  - discriminate.
  - unfold bind in E. destruct (body x st) as [[[]|e0] st0] eqn:Ex.
    + destruct (IH _ E) as (n & y & st1 & Hn & Hpre & Hy).
      exists (S n), y, st1. split; [done|]. split; [|done].
      simpl. unfold bind. now rewrite Ex.
    + injection E as -> ->. exists 0, x, st. now repeat split.
Qed.

(** An entry that raises has assigned nothing. *)
Lemma ModifyAttributes_entry_raise (H : Host) (i : nat) (item : pyval * pyval)
    (st st' : State) (e : exn) :
  ModifyAttributes_entry H i item st = (Raise e, st') -> st' = st.
Proof.
  destruct item as [sKey xValue]. unfold ModifyAttributes_entry.
  destruct sKey; try (unfold raise; congruence).
  unfold bind, get_obj, gets, lift, raise, try_setattr.
  destruct (objects st !! i) as [o|]; [|congruence].
  destruct (walk _ _ _ _ _ _ _) as [[objY [k|]]|]; try congruence.
  destruct (py_setattr H (objects st) i objY k xValue); congruence.
Qed.

Lemma ModifyProperties_entry_raise (H : Host) (i : nat) (item : pyval * pyval)
    (st st' : State) (e : exn) :
  ModifyProperties_entry H i item st = (Raise e, st') -> st' = st.
Proof.
  destruct item as [sKey xValue]. unfold ModifyProperties_entry.
  destruct sKey; try (unfold raise; congruence).
  unfold bind, get_obj, raise.
  destruct (objects st !! i) as [o|]; [|congruence].
  destruct (negb _); [congruence|].
  destruct (_ || _); [|congruence].
  unfold assign_prop, put_obj, modify, raise.
  destruct xValue; try congruence. destruct (fits_c_int z); congruence.
Qed.

(** C7: when one of the two loops over the values map raises, the state
    is the one reached by carrying out the entries before the failing
    one, all of them and nothing else: the loop over that prefix
    succeeds with the final state, and the failing entry raises the
    error from there without changing anything. *)
Theorem loops_abort_with_prefix_applied (H : Host) (i : nat) (st : State) :
  (forall items e st',
     ModifyAttributes_loop H i items st = (Raise e, st') ->
     exists n item,
       items !! n = Some item /\
       ModifyAttributes_loop H i (take n items) st = (Ok tt, st') /\
       ModifyAttributes_entry H i item st' = (Raise e, st')) /\
  (forall items e st',
     ModifyProperties_loop H i items st = (Raise e, st') ->
     exists n item,
       items !! n = Some item /\
       ModifyProperties_loop H i (take n items) st = (Ok tt, st') /\
       ModifyProperties_entry H i item st' = (Raise e, st')).
Proof.
  split; intros items e st' E;
    apply for_each_raise in E as (n & item & st1 & Hn & Hpre & Hraise).
  - pose proof (ModifyAttributes_entry_raise _ _ _ _ _ _ Hraise) as ->. eauto.
  - pose proof (ModifyProperties_entry_raise _ _ _ _ _ _ Hraise) as ->. eauto.
Qed.

Lemma loops_abort_with_prefix_applied_witness :
  (exists e st',
     ModifyAttributes_loop demo_host 0 demo_attribute_items demo_state = (Raise e, st') /\
     exists n item,
       demo_attribute_items !! n = Some item /\
       ModifyAttributes_loop demo_host 0 (take n demo_attribute_items) demo_state = (Ok tt, st') /\
       ModifyAttributes_entry demo_host 0 item st' = (Raise e, st')) /\
  (exists e st',
     ModifyProperties_loop demo_host 0 demo_property_items demo_state = (Raise e, st') /\
     exists n item,
       demo_property_items !! n = Some item /\
       ModifyProperties_loop demo_host 0 (take n demo_property_items) demo_state
       = (Ok tt, st') /\
       ModifyProperties_entry demo_host 0 item st' = (Raise e, st')).
Proof.
  pose proof (loops_abort_with_prefix_applied demo_host 0 demo_state) as [HA HP].
  split.
  - eexists _, _. split; [reflexivity|]. apply HA. reflexivity.
  - eexists _, _. split; [reflexivity|]. apply HP. reflexivity.
Defined.

(** ** ModifyProperties *)

(** What one round of the loop does with an entry whose key is a
    string. *)
Lemma ModifyProperties_entry_spec (H : Host) (i : nat) (o : BObject) (sKey : string)
    (xValue : pyval) (st : State) :
  objects st !! i = Some o ->
  (props o !! sKey = None ->
   ModifyProperties_entry H i (VStr sKey, xValue) st
   = (Raise (RuntimeError (Msg "Property '{}' not found in object '{}'"
                               [VStr sKey; VStr (name o)])), st)) /\
  (is_Some (props o !! sKey) ->
   isinstance xValue TInt || isinstance xValue TFloat || isinstance xValue TStr = true ->
   (forall z, xValue = VInt z -> fits_c_int z = true) ->
   ModifyProperties_entry H i (VStr sKey, xValue) st
   = (Ok tt, set_objects (<[i := set_props (<[sKey := xValue]> (props o)) o]> (objects st)) st)) /\
  (forall z,
   is_Some (props o !! sKey) ->
   xValue = VInt z -> fits_c_int z = false ->
   ModifyProperties_entry H i (VStr sKey, xValue) st
   = (Raise (OverflowError "Python int too large to convert to C int"), st)) /\
  (is_Some (props o !! sKey) ->
   isinstance xValue TInt || isinstance xValue TFloat || isinstance xValue TStr = false ->
   ModifyProperties_entry H i (VStr sKey, xValue) st
   = (Raise (RuntimeError (Msg "Value for property '{}' of unsupported type '{}'"
                               [VStr sKey; VStr (ToTypename H xValue)])), st)).
Proof.
  intros Ho. unfold ModifyProperties_entry, bind. rewrite (get_obj_some _ _ _ Ho).
  repeat split.
  - intros Hnone. rewrite bool_decide_eq_false_2; [done|].
    rewrite Hnone. now intros [? ?].
  - intros Hsome Hty Hfit. rewrite bool_decide_eq_true_2 by done. simpl. rewrite Hty.
    unfold assign_prop. destruct xValue; try reflexivity. now rewrite (Hfit z).
  - intros z Hsome -> Hfit. rewrite bool_decide_eq_true_2 by done. simpl.
    unfold assign_prop. now rewrite Hfit.
  - intros Hsome Hty. rewrite bool_decide_eq_true_2 by done. simpl. now rewrite Hty.
Qed.

(** X7: the function does not get to the loop: whatever the
    configuration, the object and the scene, it raises and leaves the
    state as it is. *)
Lemma ModifyProperties_always_raises (H : Host) (i : nat) (dic : pydict) (st : State) :
  exists e, ModifyProperties H i dic st = (Raise e, st).
Proof.
  unfold ModifyProperties, bind, assert_in_blender, lift.
  destruct (g_bInBlenderContext st); [|eauto].
  destruct (paramclass_init CModifyPropertiesParams dic) as [mp|] eqn:Hinit; [|eauto].
  unfold CModifyPropertiesParams in Hinit. open_params Hinit.
  vm_compute. eauto.
Qed.

(** C1: on a configuration that sets the existing custom property
    [speed] to the integer 5, [ModifyProperties] raises [AttributeError]
    for [dicValues] and assigns nothing. *)
Theorem ModifyProperties_reads_undeclared_field :
  ModifyProperties demo_host 0 demo_properties_config demo_state
  = (Raise (AttributeError "dicValues"), demo_state).
Proof. reflexivity. Qed.

(** ** ModifyAttributes *)









(** On a valid configuration, [ModifyAttributes] is the loop over the
    items of [mValues]. *)
Lemma ModifyAttributes_runs_loop (H : Host) (i : nat) (dic : pydict) (mp : params)
    (st : State) :
  g_bInBlenderContext st = true ->
  paramclass_init CModifyAttributesParams dic = Ok mp ->
  exists items,
    getattr_param mp "mValues" = Ok (VDict items) /\
    ModifyAttributes H i dic st = ModifyAttributes_loop H i items st.
Proof.
  intros Hctx Hinit.
  destruct (CModifyAttributesParams_init _ _ Hinit) as (d & items & ->).
  exists items. split; [reflexivity|].
  unfold ModifyAttributes, bind, lift, assert_in_blender. rewrite Hinit, Hctx.
  now run_params.
Qed.

(** ** ParentToObject *)

(** C5: for an object that is not a camera, a parent that is not in
    the scene is an error naming it when [bSkipNonexistingParent] is
    false, and is passed over when it is true: no object changes and no
    parenting call is made; a parent that is there becomes the object's
    parent, with [bKeepTransform] handed to the parenting routine as the
    configuration has it.  For a camera the camera routine is called
    instead, and the scene is not searched for the parent. *)
Theorem ParentToObject_spec (i : nat) (o : BObject) (dic : pydict) (mp : params) (st : State) :
  objects st !! i = Some o ->
  paramclass_init CParentToObjectParams dic = Ok mp ->
  exists sParentObject bKeepTransform bSkip,
    getattr_param mp "sParentObject" = Ok (VStr sParentObject) /\
    getattr_param mp "bKeepTransform" = Ok (VBool bKeepTransform) /\
    getattr_param mp "bSkipNonexistingParent" = Ok (VBool bSkip) /\
    (type_ o <> "CAMERA" ->
     match find_name sParentObject 0 (objects st) with
     | None =>
         if bSkip then ParentToObject i dic st = (Ok tt, add_call CallViewLayerUpdate st)
         else ParentToObject i dic st
              = (Raise (RuntimeError (Msg "Object '{}' not found for parenting"
                                          [VStr sParentObject])), st)
     | Some objParent =>
         ParentToObject i dic st
         = (Ok tt,
            add_call CallViewLayerUpdate
              (add_call (CallParentObject objParent i (VBool bKeepTransform))
                 (set_objects (<[i := set_parent (Some objParent) o]> (objects st)) st)))
     end) /\
    (type_ o = "CAMERA" ->
     ParentToObject i dic st
     = (Ok tt,
        add_call CallViewLayerUpdate
          (add_call (CallParentAnyCam (name o) (VStr sParentObject)) st))).
Proof.
  intros Ho Hinit.
  destruct (CParentToObjectParams_init _ _ Hinit) as (d & p & k & s & ->).
  exists p, k, s. do 3 (split; [reflexivity|]).
  unfold ParentToObject, bind, lift. rewrite Hinit, (get_obj_some _ _ _ Ho).
  split; intros Hty.
  - rewrite bool_decide_eq_false_2 by done. run_params. simpl.
    unfold gets. destruct (find_name p 0 (objects st)) as [objParent|].
    + unfold ParentObject, bind. now rewrite (upd_obj_some _ _ _ _ Ho).
    + now destruct s.
  - rewrite bool_decide_eq_true_2 by done. now run_params.
Qed.

Lemma ParentToObject_spec_witness :
  objects demo_state !! 3 = Some demo_lamp /\
  paramclass_init CParentToObjectParams demo_parent_config
  = Ok [("sDTI", VStr "/catharsys/blender/modify/object/parent:1.0");
        ("sParentObject", VStr "Rig"); ("bKeepTransform", VBool true);
        ("bSkipNonexistingParent", VBool false)] /\
  ParentToObject 3 demo_parent_config demo_state
  = (Ok tt,
     add_call CallViewLayerUpdate
       (add_call (CallParentObject 0 3 (VBool true))
          (set_objects (<[3 := set_parent (Some 0) demo_lamp]> (objects demo_state))
             demo_state))).
Proof.
  split; [reflexivity|]. split; [reflexivity|].
  destruct (ParentToObject_spec 3 demo_lamp demo_parent_config
              [("sDTI", VStr "/catharsys/blender/modify/object/parent:1.0");
               ("sParentObject", VStr "Rig"); ("bKeepTransform", VBool true);
               ("bSkipNonexistingParent", VBool false)]
              demo_state eq_refl eq_refl) as (p & k & s & Hp & Hk & Hs & Hmesh & _).
  vm_compute in Hp, Hk. injection Hp as <-. injection Hk as <-.
  apply Hmesh. discriminate.
Defined.

(** ** ExportObjectObj *)

Lemma ancestors_self (p : Path) : p ∈ ancestors p.
Proof.
  apply list_elem_of_In, in_map_iff. exists (length (parts p)). split.
  - rewrite firstn_all. now destruct p.
  - apply in_seq. lia.
Qed.

(** After [mkdir] the directory exists. *)
Lemma mkdir_parents_exists (p : Path) (st : State) :
  path_exists p (snd (mkdir_parents p st)) = true.
Proof.
  unfold path_exists. apply bool_decide_eq_true_2.
  change (fs (snd (mkdir_parents p st)))
    with (fs st ++ List.filter (fun q => negb (bool_decide (q ∈ fs st))) (ancestors p)).
  destruct (decide (p ∈ fs st)) as [Hin|Hout].
  - apply elem_of_app. now left.
  - apply elem_of_app. right. apply list_elem_of_In, filter_In. split.
    + apply list_elem_of_In, ancestors_self.
    + now rewrite bool_decide_eq_false_2.
Qed.

(** C6: a path that is not absolute is taken from the directory of the
    scene file.  When the directory of the resulting path exists, the
    object is exported there.  When it does not exist, it is created,
    with the directories above it, and the object exported, if
    [bCreatePath] is true; if [bCreatePath] is false, an error naming
    the directory is raised, nothing is created and nothing is
    exported. *)
Theorem ExportObjectObj_spec (i : nat) (o : BObject) (dic : pydict) (mp : params) (st : State) :
  objects st !! i = Some o ->
  paramclass_init CExportObjectObjParams dic = Ok mp ->
  exists sFilePath bCreatePath,
    getattr_param mp "sFilePath" = Ok (VStr sFilePath) /\
    getattr_param mp "bCreatePath" = Ok (VBool bCreatePath) /\
    let pathFile := export_path sFilePath (blend_dir st) in
    let dir := path_parent pathFile in
    (absolute (MakeNormPath_str sFilePath) = false ->
     pathFile = MakeNormPath (path_join (blend_dir st) (MakeNormPath_str sFilePath))) /\
    (absolute (MakeNormPath_str sFilePath) = true ->
     pathFile = MakeNormPath_str sFilePath) /\
    (dir ∈ fs st ->
     ExportObjectObj i dic st = (Ok tt, add_call (CallExportFromScene_Obj pathFile i) st)) /\
    (dir ∉ fs st -> bCreatePath = true ->
     let st' := snd (mkdir_parents dir st) in
     dir ∈ fs st' /\
     ExportObjectObj i dic st = (Ok tt, add_call (CallExportFromScene_Obj pathFile i) st')) /\
    (dir ∉ fs st -> bCreatePath = false ->
     ExportObjectObj i dic st
     = (Raise (RuntimeError (Msg "Export path for object ' {}' does not exist: {}"
                                 [VStr (name o); VStr (as_posix dir)])), st)).
Proof.
  intros Ho Hinit.
  destruct (CExportObjectObjParams_init _ _ Hinit) as (d & p & c & ->).
  exists p, c. do 2 (split; [reflexivity|]).
  intros pathFile dir.
  split; [|split]; [unfold pathFile, export_path; now intros -> ..|].
  unfold ExportObjectObj, bind, lift, gets. rewrite Hinit. run_params. cbv beta iota.
  change (export_path p (blend_dir st)) with pathFile.
  change (path_parent pathFile) with dir.
  split; [|split].
  - intros Hin. unfold path_exists. rewrite bool_decide_eq_true_2 by done. simpl.
    unfold ret. now rewrite bool_decide_eq_true_2 by done.
  - intros Hout Hc. subst c. cbv zeta. set (st' := snd (mkdir_parents dir st)).
    pose proof (mkdir_parents_exists dir st) as Hex. fold st' in Hex.
    split; [unfold path_exists in Hex; now apply bool_decide_eq_true_1 in Hex|].
    unfold path_exists at 1. rewrite bool_decide_eq_false_2 by done.
    change (negb false && is_True (VBool true)) with true. cbv iota.
    destruct (mkdir_parents dir st) as [[[]|e] st1] eqn:Emk; [|discriminate Emk].
    simpl in st'. subst st'. now rewrite Hex.
  - intros Hout ->.
    unfold path_exists. rewrite bool_decide_eq_false_2 by done. simpl.
    unfold ret. rewrite bool_decide_eq_false_2 by done. simpl.
    now rewrite (get_obj_some _ _ _ Ho).
Qed.

Lemma ExportObjectObj_spec_witness :
  objects demo_state !! 2 = Some demo_wheel /\
  paramclass_init CExportObjectObjParams demo_export_config
  = Ok [("sDTI", VStr "/catharsys/blender/modify/object/export/obj:1.0");
        ("sFilePath", VStr "out/../exp/a/mesh.obj"); ("bCreatePath", VBool true)] /\
  let pathFile := {| absolute := true; parts := ["home"; "scenes"; "exp"; "a"; "mesh.obj"] |} in
  let dir := {| absolute := true; parts := ["home"; "scenes"; "exp"; "a"] |} in
  ExportObjectObj 2 demo_export_config demo_state
  = (Ok tt, add_call (CallExportFromScene_Obj pathFile 2) (snd (mkdir_parents dir demo_state))).
Proof.
  split; [reflexivity|]. split; [reflexivity|].
  destruct (ExportObjectObj_spec 2 demo_wheel demo_export_config
              [("sDTI", VStr "/catharsys/blender/modify/object/export/obj:1.0");
               ("sFilePath", VStr "out/../exp/a/mesh.obj"); ("bCreatePath", VBool true)]
              demo_state eq_refl eq_refl) as (p & c & Hp & Hc & Hrun).
  vm_compute in Hp, Hc. injection Hp as <-. injection Hc as <-.
  destruct Hrun as (_ & _ & _ & Hcreate & _).
  apply Hcreate; [|reflexivity].
  apply (bool_decide_eq_false_1 _). reflexivity.
Defined.

(** ** Enable *)

Lemma set_hide_render_twice (b : bool) (o : BObject) :
  set_hide_render b (set_hide_render b o) = set_hide_render b o.
Proof. reflexivity. Qed.

Lemma set_objects_twice (l l' : list BObject) (st : State) :
  set_objects l' (set_objects l st) = set_objects l' st.
Proof. reflexivity. Qed.

Lemma touched_lookup (l lx : list BObject) (b : bool) (P : nat -> Prop) (j : nat) (ox : BObject) :
  touched l b P lx -> lx !! j = Some ox ->
  exists o, l !! j = Some o /\ (ox = o \/ ox = set_hide_render b o).
Proof.
  intros [Hlen Ht] Hx. apply lookup_lt_Some in Hx as Hlt. rewrite Hlen in Hlt.
  destruct (lookup_lt_is_Some_2 _ _ Hlt) as [o Ho].
  exists o. split; [done|].
  destruct (Ht j o Ho) as [E|[_ E]]; rewrite E in Hx; injection Hx as <-; auto.
Qed.

Lemma touched_parent (l lx : list BObject) (b : bool) (P : nat -> Prop) (j : nat) :
  touched l b P lx -> parent <$> (lx !! j) = parent <$> (l !! j).
Proof.
  intros Ht. destruct (lx !! j) as [ox|] eqn:Hx.
  - destruct (touched_lookup _ _ _ _ _ _ Ht Hx) as (o & -> & [->| ->]); reflexivity.
  - apply lookup_ge_None in Hx. destruct Ht as [Hlen _]. rewrite Hlen in Hx.
    apply lookup_ge_None in Hx. now rewrite Hx.
Qed.

Lemma touched_refl (l : list BObject) (b : bool) (P : nat -> Prop) : touched l b P l.
Proof. split; [done|]. auto. Qed.

Lemma touched_mono (l lx : list BObject) (b : bool) (P Q : nat -> Prop) :
  (forall j, P j -> Q j) -> touched l b P lx -> touched l b Q lx.
Proof.
  intros HPQ [Hlen Ht]. split; [done|].
  intros j o Ho. destruct (Ht j o Ho) as [E|[Hp E]]; auto.
Qed.

Lemma touched_trans (l lx ly : list BObject) (b : bool) (P : nat -> Prop) :
  touched l b P lx -> touched lx b P ly -> touched l b P ly.
Proof.
  intros [Hlen1 H1] [Hlen2 H2]. split; [congruence|].
  intros j o Ho. destruct (H1 j o Ho) as [E|[Hp E]].
  - destruct (H2 j o E) as [E'|[Hp E']]; auto.
  - right. split; [done|].
    destruct (H2 j _ E) as [E'|[_ E']]; rewrite E'; [done|].
    now rewrite set_hide_render_twice.
Qed.

Lemma covered_keep (l lx ly : list BObject) (b : bool) (P Q : nat -> Prop) :
  covered l b P lx -> touched lx b Q ly -> covered l b P ly.
Proof.
  intros Hc [_ Ht] j o Ho Hp.
  destruct (Ht j _ (Hc j o Ho Hp)) as [E|[_ E]]; rewrite E; [done|].
  now rewrite set_hide_render_twice.
Qed.

Lemma covered_later (l lx ly : list BObject) (b : bool) (P Q : nat -> Prop) :
  touched l b P lx -> covered lx b Q ly -> covered l b Q ly.
Proof.
  intros [_ Ht] Hc j o Ho Hq.
  destruct (Ht j o Ho) as [E|[_ E]]; rewrite (Hc j _ E Hq); [done|].
  now rewrite set_hide_render_twice.
Qed.

Lemma below_trans (l : list BObject) (i c j : nat) :
  below l i c -> below l c j -> below l i j.
Proof.
  intros Hic Hcj. induction Hcj as [|j p o Ho Hp _ IH]; [done|].
  now apply below_child with p o.
Qed.

Lemma below_touched (l lx : list BObject) (b : bool) (P : nat -> Prop) (i j : nat) :
  touched l b P lx -> below lx i j -> below l i j.
Proof.
  intros Ht Hb. induction Hb as [|j p ox Hx Hp _ IH]; [constructor|].
  destruct (touched_lookup _ _ _ _ _ _ Ht Hx) as (o & Ho & [->| ->]);
    now apply below_child with p o.
Qed.

Lemma touched_below (l lx : list BObject) (b : bool) (P : nat -> Prop) (i j : nat) :
  touched l b P lx -> below l i j -> below lx i j.
Proof.
  intros Ht Hb. induction Hb as [|j p o Ho Hp _ IH]; [constructor|].
  destruct Ht as [_ Ht]. destruct (Ht j o Ho) as [E|[_ E]].
  - now apply below_child with p o.
  - now apply below_child with p (set_hide_render b o).
Qed.

(** An object below [i] is [i] or below a child of [i]. *)
Lemma below_cases (l : list BObject) (i j : nat) :
  below l i j ->
  j = i \/ exists c oc, l !! c = Some oc /\ parent oc = Some i /\ below l c j.
Proof.
  intros Hb. induction Hb as [|j p o Ho Hp _ IH]; [now left|].
  right. destruct IH as [->|(c & oc & Hc & Hpc & Hbc)].
  - exists j, o. repeat split; [done..|constructor].
  - exists c, oc. repeat split; [done..|]. now apply below_child with p o.
Qed.

Lemma elem_of_children (l : list BObject) (i c : nat) :
  c ∈ children l i <-> exists oc, l !! c = Some oc /\ parent oc = Some i.
Proof.
  unfold children. rewrite list_elem_of_In, filter_In, in_seq. split.
  - intros [_ Hc]. destruct (l !! c) as [oc|]; [|done].
    exists oc. split; [done|]. now apply bool_decide_eq_true_1 in Hc.
  - intros (oc & Hc & Hp). split.
    + apply lookup_lt_Some in Hc. lia.
    + rewrite Hc. now apply bool_decide_eq_true_2.
Qed.

Lemma children_touched (l lx : list BObject) (b : bool) (P : nat -> Prop) (i : nat) :
  touched l b P lx -> children lx i = children l i.
Proof.
  intros Ht. unfold children. destruct Ht as [Hlen Ht']. rewrite Hlen.
  apply filter_ext. intros j.
  pose proof (touched_parent l lx b P j (conj Hlen Ht')) as Hp.
  destruct (lx !! j) as [ox|], (l !! j) as [o|]; simpl in Hp; try done.
  injection Hp as ->. reflexivity.
Qed.

Lemma acyclic_touched (l lx : list BObject) (b : bool) (P : nat -> Prop) (h : nat -> nat) :
  touched l b P lx -> acyclic l h -> acyclic lx h.
Proof.
  intros Ht Hh j ox p Hx Hp.
  destruct (touched_lookup _ _ _ _ _ _ Ht Hx) as (o & Ho & [->| ->]); eauto.
Qed.

Section EnableRender.

Variable h : nat -> nat.
Variable _bEnable : pyval.

Let nb : bool := negb (truthy _bEnable).

Lemma for_each_children_run (f : nat) :
  (forall c st,
     acyclic (objects st) h -> h c < f -> c < length (objects st) ->
     runs_on _bEnable f c st) ->
  forall (l : list BObject) (i : nat) (st : State) (cs : list nat) (lx : list BObject),
    acyclic l h ->
    touched l nb (below l i) lx ->
    (forall c, c ∈ cs -> c < length l /\ below l i c /\ h c < f) ->
    exists l',
      for_each cs (fun objC => _EnableRender f objC _bEnable true) (set_objects lx st)
      = (Ok tt, set_objects l' st) /\
      touched lx nb (below l i) l' /\
      covered l nb (fun j => exists c, c ∈ cs /\ below l c j) l'.
Proof.
  intros Hrec l i st cs. induction cs as [|c cs IH]; intros lx Hf Ht Hcs.
  - exists lx. split; [reflexivity|]. split; [apply touched_refl|].
    intros j o _ (c & Hc & _). now apply elem_of_nil in Hc.
  - destruct (Hcs c) as (Hlt & Hic & Hh); [apply list_elem_of_here|].
    destruct (Hrec c (set_objects lx st)) as (l2 & Hrun & Ht2 & Hc2).
    { now apply acyclic_touched with l nb (below l i). }
    { done. }
    { simpl. destruct Ht as [-> _]. done. }
    simpl in Ht2, Hc2.
    assert (Ht2' : touched lx nb (below l i) l2).
    { apply touched_mono with (below lx c); [|done].
      intros j Hj. apply below_trans with c; [done|].
      now apply below_touched with lx nb (below l i). }
    destruct (IH l2) as (l' & Hrun' & Ht' & Hc').
    { done. }
    { now apply touched_trans with lx. }
    { intros c' Hc'. apply Hcs. now apply list_elem_of_further. }
    exists l'. split; [|split].
    + simpl. rewrite (bind_ok _ _ _ _ _ Hrun). exact Hrun'.
    + now apply touched_trans with l2.
    + intros j o Ho (c' & Hin & Hb). apply elem_of_cons in Hin as [->|Hin].
      * apply (covered_keep l l2 l' nb (below l c) (below l i)); [|done..].
        intros j' o' Ho' Hb'.
        apply (covered_later l lx l2 nb (below l i) (below lx c)); [done..|].
        now apply touched_below with l nb (below l i).
      * apply Hc'; eauto.
Qed.

Lemma _EnableRender_run (fuel : nat) :
  forall (i : nat) (st : State),
    acyclic (objects st) h -> h i < fuel -> i < length (objects st) ->
    runs_on _bEnable fuel i st.
Proof.
  induction fuel as [|f IH]; intros i st Hf Hh Hlt; [lia|].
  destruct (lookup_lt_is_Some_2 _ _ Hlt) as [oi Hoi].
  set (l := objects st) in *.
  set (l1 := <[i := set_hide_render nb oi]> l).
  assert (Ht1 : touched l nb (below l i) l1).
  { split; [apply length_insert|]. intros j o Ho.
    destruct (decide (j = i)) as [->|Hne].
    - right. split; [constructor|]. unfold l1.
      rewrite list_lookup_insert_eq by done. congruence.
    - left. unfold l1. now rewrite list_lookup_insert_ne. }
  destruct (for_each_children_run f IH l i st (children l i) l1 Hf Ht1)
    as (l' & Hrun & Ht' & Hc').
  { intros c Hc. apply elem_of_children in Hc as (oc & Hoc & Hp).
    split; [now apply lookup_lt_Some in Hoc|].
    split; [apply below_child with i oc; [done..|constructor]|].
    pose proof (Hf c oc i Hoc Hp). lia. }
  exists l'. split; [|split].
  - simpl. unfold bind at 1. rewrite (upd_obj_some _ _ _ _ Hoi). fold l l1.
    unfold bind, gets. simpl objects.
    change (<[i := set_hide_render (negb (truthy _bEnable)) oi]> l) with l1.
    rewrite (children_touched l l1 nb (below l i) i Ht1). exact Hrun.
  - now apply touched_trans with l1.
  - intros j o Ho Hb. apply below_cases in Hb as [Heq|(c & oc & Hoc & Hp & Hb)].
    + subst j. destruct Ht' as [_ Ht'].
      assert (E : l1 !! i = Some (set_hide_render nb o)).
      { unfold l1. rewrite list_lookup_insert_eq by done.
        change (l !! i = Some o) in Ho. rewrite Hoi in Ho. now injection Ho as ->. }
      destruct (Ht' i _ E) as [E'|[_ E']]; rewrite E'; [done|].
      now rewrite set_hide_render_twice.
    + apply Hc'; [done|]. exists c. split; [|done].
      apply elem_of_children. eauto.
Qed.

End EnableRender.

(** On a valid configuration inside Blender, [Enable] is the recursive
    toggle with the depth the interpreter allows. *)
Lemma Enable_run (H : Host) (i : nat) (dic : pydict) (mp : params) (xValue : bool)
    (st : State) :
  g_bInBlenderContext st = true ->
  CheckConfigType H dic "/catharsys/blender/modify/object/enable:1.0" = true ->
  paramclass_init CEnableParams dic = Ok mp ->
  getattr_param mp "xValue" = Ok (VBool xValue) ->
  Enable H i dic st = _EnableRender (recursion_limit H) i (VBool xValue) true st.
Proof.
  intros Hctx Hdti Hinit Hx.
  unfold Enable, bind, assert_in_blender, AssertConfigType, lift, gets, ret.
  now rewrite Hctx, Hdti, Hinit, Hx.
Qed.

(** C8: in a hierarchy without cycles, on an object whose subtree is no
    deeper than the nesting of calls the interpreter still allows,
    [Enable] succeeds and the flag [hide_render] is the negation of
    [xValue] on the object and on every object below it; every other
    field of these objects, every other object, and the rest of the
    state are as before. *)
Theorem Enable_spec (H : Host) (h : nat -> nat) (i : nat) (dic : pydict) (mp : params)
    (xValue : bool) (st : State) :
  g_bInBlenderContext st = true ->
  CheckConfigType H dic "/catharsys/blender/modify/object/enable:1.0" = true ->
  paramclass_init CEnableParams dic = Ok mp ->
  getattr_param mp "xValue" = Ok (VBool xValue) ->
  acyclic (objects st) h ->
  i < length (objects st) ->
  h i < recursion_limit H ->
  exists l',
    Enable H i dic st = (Ok tt, set_objects l' st) /\
    length l' = length (objects st) /\
    forall j o, objects st !! j = Some o ->
      (below (objects st) i j ->
       exists o', l' !! j = Some o' /\ hide_render o' = negb xValue /\
                  same_but_hide_render o o') /\
      (~ below (objects st) i j -> l' !! j = Some o).
Proof.
  intros Hctx Hdti Hinit Hx Hf Hlt Hdepth.
  destruct (_EnableRender_run h (VBool xValue) (recursion_limit H) i st Hf Hdepth Hlt)
    as (l' & Hrun & [Hlen Ht] & Hc).
  exists l'. split; [|split; [done|]].
  - now rewrite (Enable_run H i dic mp xValue st).
  - intros j o Ho. split.
    + intros Hb. exists (set_hide_render (negb xValue) o).
      split; [now apply Hc|]. now repeat split.
    + intros Hnb. destruct (Ht j o Ho) as [E|[Hb _]]; [done|]. now destruct Hnb.
Qed.

Lemma demo_acyclic : acyclic demo_objects demo_height.
Proof.
  intros j o p Ho Hp.
  do 5 (destruct j as [|j]; [injection Ho as <-; simpl in Hp; try discriminate Hp;
                             injection Hp as <-; simpl; lia|]).
  discriminate Ho.
Qed.

Lemma Enable_spec_witness :
  g_bInBlenderContext demo_state = true /\
  CheckConfigType demo_host (demo_enable_config false)
    "/catharsys/blender/modify/object/enable:1.0" = true /\
  paramclass_init CEnableParams (demo_enable_config false)
  = Ok [("sDTI", VStr "/catharsys/blender/modify/object/enable:1.0");
        ("xValue", VBool false)] /\
  acyclic (objects demo_state) demo_height /\
  0 < length (objects demo_state) /\
  demo_height 0 < recursion_limit demo_host /\
  hide_render <$> objects demo_state = [false; false; true; false; false] /\
  exists l',
    Enable demo_host 0 (demo_enable_config false) demo_state
    = (Ok tt, set_objects l' demo_state) /\
    length l' = length (objects demo_state) /\
    forall j o, objects demo_state !! j = Some o ->
      (below (objects demo_state) 0 j ->
       exists o', l' !! j = Some o' /\ hide_render o' = negb false /\
                  same_but_hide_render o o') /\
      (~ below (objects demo_state) 0 j -> l' !! j = Some o).
Proof.
  split; [reflexivity|]. split; [reflexivity|]. split; [reflexivity|].
  split; [exact demo_acyclic|]. split; [simpl; lia|]. split; [simpl; lia|].
  split; [reflexivity|].
  apply (Enable_spec demo_host demo_height 0 (demo_enable_config false)
           [("sDTI", VStr "/catharsys/blender/modify/object/enable:1.0");
            ("xValue", VBool false)] false demo_state);
    [reflexivity | reflexivity | reflexivity | reflexivity | exact demo_acyclic
    | simpl; lia | simpl; lia].
Defined.

(** *** A chain deeper than the interpreter allows *)

Lemma filter_seq_single (P : nat -> bool) (a : nat) :
  forall m s : nat,
    (forall j, s <= j < s + m -> P j = bool_decide (j = a)) ->
    List.filter P (seq s m) = if bool_decide (s <= a < s + m) then [a] else [].
Proof.
  induction m as [|m IH]; intros s HP.
  - simpl. rewrite bool_decide_eq_false_2; [done|lia].
  - simpl. rewrite (HP s) by lia. rewrite (IH (S s)) by (intros j Hj; apply HP; lia).
    destruct (decide (s = a)) as [->|Hne].
    + rewrite bool_decide_eq_true_2 by done.
      rewrite bool_decide_eq_false_2 by lia. rewrite bool_decide_eq_true_2 by lia. done.
    + rewrite bool_decide_eq_false_2 by done.
      destruct (decide (S s <= a < S s + m)).
      * rewrite !bool_decide_eq_true_2 by lia. done.
      * rewrite !bool_decide_eq_false_2 by lia. done.
Qed.

Lemma children_chained (l : list BObject) (k : nat) :
  chained l -> S k < length l -> children l k = [S k].
Proof.
  intros Hch Hlt. unfold children.
  rewrite (filter_seq_single _ (S k)).
  - rewrite bool_decide_eq_true_2; [done|lia].
  - intros j Hj. destruct (lookup_lt_is_Some_2 l j ltac:(lia)) as [o Ho].
    rewrite Ho, (Hch j o Ho). destruct j as [|j].
    + rewrite !bool_decide_eq_false_2; done.
    + destruct (decide (j = k)) as [->|Hne].
      * rewrite !bool_decide_eq_true_2; done.
      * rewrite !bool_decide_eq_false_2; congruence.
Qed.

Lemma chained_insert (l : list BObject) (k : nat) (o : BObject) (b : bool) :
  chained l -> l !! k = Some o -> chained (<[k := set_hide_render b o]> l).
Proof.
  intros Hch Ho j oj Hj. destruct (decide (j = k)) as [->|Hne].
  - rewrite list_lookup_insert_eq in Hj by (now apply lookup_lt_Some in Ho).
    injection Hj as <-. exact (Hch k o Ho).
  - rewrite list_lookup_insert_ne in Hj by done. exact (Hch j oj Hj).
Qed.

Lemma chain_lookup (n j : nat) : j < n -> chain n !! j = Some (chain_link j).
Proof.
  intros Hj. unfold chain. rewrite list_lookup_fmap, lookup_seq_lt by done. reflexivity.
Qed.

Lemma chain_chained (n : nat) : chained (chain n).
Proof.
  intros j o Ho. assert (Hj : j < n).
  { apply lookup_lt_Some in Ho. unfold chain in Ho.
    now rewrite length_fmap, length_seq in Ho. }
  rewrite chain_lookup in Ho by done. injection Ho as <-. reflexivity.
Qed.

Lemma below_chained (l : list BObject) (k : nat) :
  chained l -> k < length l -> below l 0 k.
Proof.
  intros Hch. induction k as [|k IH]; intros Hk; [constructor|].
  destruct (lookup_lt_is_Some_2 l (S k) Hk) as [o Ho].
  apply below_child with k o; [done|exact (Hch _ _ Ho)|]. apply IH. lia.
Qed.

(** On a chain longer than the depth allowed, the recursion ends in
    [RecursionError], and the objects it has not reached are as they
    were. *)
Lemma _EnableRender_chain (b : pyval) (fuel : nat) :
  forall (k : nat) (st : State),
    chained (objects st) -> k + fuel < length (objects st) ->
    exists l',
      _EnableRender fuel k b true st = (Raise RecursionError, set_objects l' st) /\
      forall j, k + fuel <= j -> l' !! j = objects st !! j.
Proof.
  induction fuel as [|f IH]; intros k st Hch Hlt.
  - exists (objects st). split; [|done]. simpl. unfold raise. now rewrite set_objects_same.
  - destruct (lookup_lt_is_Some_2 (objects st) k ltac:(lia)) as [o Ho].
    set (l1 := <[k := set_hide_render (negb (truthy b)) o]> (objects st)).
    assert (Hch1 : chained l1) by now apply chained_insert.
    assert (Hlen1 : length l1 = length (objects st)) by apply length_insert.
    destruct (IH (S k) (set_objects l1 st) Hch1) as (l' & Hrun & Hrest).
    { simpl. lia. }
    exists l'. split.
    + simpl. unfold bind at 1. rewrite (upd_obj_some _ _ _ _ Ho). fold l1.
      unfold bind, gets. simpl objects.
      rewrite (children_chained l1 k Hch1) by lia.
      simpl. unfold bind. now rewrite Hrun.
    + intros j Hj. rewrite Hrest by lia. simpl. unfold l1.
      apply list_lookup_insert_ne. lia.
Qed.

(** C8, as the specification words it, fails on a hierarchy deeper than
    the interpreter's recursion limit: on a chain of 1001 objects,
    which has no cycle, [Enable] on the first one with [xValue] false
    ends in [RecursionError], and the last object of the chain, which
    is below the first, is still not hidden. *)
Lemma Enable_deep_chain :
  acyclic (objects deep_state) (fun j => 1000 - j) /\
  below (objects deep_state) 0 1000 /\
  fst (Enable demo_host 0 (demo_enable_config false) deep_state) = Raise RecursionError /\
  hide_render <$> objects (snd (Enable demo_host 0 (demo_enable_config false) deep_state))
                    !! 1000
  = Some false.
Proof.
  assert (Hlen : length (objects deep_state) = 1001).
  { change (objects deep_state) with (chain 1001). unfold chain.
    now rewrite length_fmap, length_seq. }
  assert (Hch : chained (objects deep_state)) by apply chain_chained.
  split; [|split].
  - intros j o p Ho Hp. rewrite (Hch j o Ho) in Hp.
    apply lookup_lt_Some in Ho. rewrite Hlen in Ho.
    destruct j as [|j]; [discriminate Hp|]. injection Hp as <-. lia.
  - apply below_chained; [done|]. rewrite Hlen. lia.
  - rewrite (Enable_run demo_host 0 (demo_enable_config false)
               [("sDTI", VStr "/catharsys/blender/modify/object/enable:1.0");
                ("xValue", VBool false)] false deep_state eq_refl eq_refl eq_refl eq_refl).
    destruct (_EnableRender_chain (VBool false) (recursion_limit demo_host) 0 deep_state Hch)
      as (l' & Hrun & Hrest).
    { rewrite Hlen. change (recursion_limit demo_host) with 1000. lia. }
    rewrite Hrun. split; [reflexivity|].
    cbn [snd objects set_objects].
    rewrite (Hrest 1000) by (change (recursion_limit demo_host) with 1000; lia).
    change (objects deep_state) with (chain 1001).
    rewrite (chain_lookup 1001 1000) by lia. reflexivity.
Qed.

(** ** EnableIfBoundBox and LogObject *)

(** C9: [EnableIfBoundBox] and [LogObject] read their parameters off
    the class object.  So on two configurations that both pass the
    configuration-type assertion, whatever else they hold,
    [EnableIfBoundBox] gives the same outcome and the same final state;
    and [LogObject], which makes no such assertion, does so on any two
    configurations. *)
Theorem configuration_values_ignored (H : Host) (i : nat) (dic1 dic2 : pydict) (st : State) :
  (CheckConfigType H dic1 "/catharsys/blender/modify/object/enable-if/bound-box:1.0" = true ->
   CheckConfigType H dic2 "/catharsys/blender/modify/object/enable-if/bound-box:1.0" = true ->
   EnableIfBoundBox H i dic1 st = EnableIfBoundBox H i dic2 st) /\
  LogObject H i dic1 st = LogObject H i dic2 st.
Proof.
  split; [|reflexivity].
  intros H1 H2. unfold EnableIfBoundBox, bind, AssertConfigType.
  now rewrite H1, H2.
Qed.

Lemma configuration_values_ignored_witness :
  CheckConfigType demo_host demo_boundbox_config_1
    "/catharsys/blender/modify/object/enable-if/bound-box:1.0" = true /\
  CheckConfigType demo_host demo_boundbox_config_2
    "/catharsys/blender/modify/object/enable-if/bound-box:1.0" = true /\
  EnableIfBoundBox demo_host 2 demo_boundbox_config_1 demo_state
  = EnableIfBoundBox demo_host 2 demo_boundbox_config_2 demo_state /\
  LogObject demo_host 2 demo_boundbox_config_1 demo_state
  = LogObject demo_host 2 demo_boundbox_config_2 demo_state.
Proof.
  split; [reflexivity|]. split; [reflexivity|].
  destruct (configuration_values_ignored demo_host 2 demo_boundbox_config_1
              demo_boundbox_config_2 demo_state) as [Hbox Hlog].
  split; [apply Hbox; reflexivity|exact Hlog].
Defined.

(** [Enable], which builds its parameters from the configuration, does
    depend on it. *)
Lemma Enable_depends_on_configuration :
  Enable demo_host 0 (demo_enable_config true) demo_state
  <> Enable demo_host 0 (demo_enable_config false) demo_state.
Proof.
  intros E. apply (f_equal (fun r => hide_render <$> (objects (snd r) !! 0))) in E.
  vm_compute in E. discriminate E.
Qed.

(** * Further properties *)

(** ** Enable *)

(** Two runs on the same object with the same depth allowed, the second
    on the result of the first, end where the second alone ends. *)
Lemma runs_on_twice (h : nat -> nat) (b1 b2 : pyval) (fuel i : nat) (st : State) :
  acyclic (objects st) h -> i < length (objects st) -> h i < fuel ->
  bind (_EnableRender fuel i b1 true) (fun _ => _EnableRender fuel i b2 true) st
  = _EnableRender fuel i b2 true st.
Proof.
  intros Hf Hlt Hdepth.
  destruct (_EnableRender_run h b1 fuel i st Hf Hdepth Hlt) as (l1 & Hrun1 & Ht1 & Hc1).
  destruct (_EnableRender_run h b2 fuel i st Hf Hdepth Hlt) as (l2 & Hrun2 & Ht2 & Hc2).
  assert (Hlen1 : length l1 = length (objects st)) by apply Ht1.
  assert (Hf1 : acyclic (objects (set_objects l1 st)) h).
  { now apply acyclic_touched with (objects st) (negb (truthy b1)) (below (objects st) i). }
  destruct (_EnableRender_run h b2 fuel i (set_objects l1 st) Hf1 Hdepth)
    as (l3 & Hrun3 & Ht3 & Hc3).
  { simpl. now rewrite Hlen1. }
  simpl in Ht3, Hc3.
  rewrite (bind_ok _ _ _ _ _ Hrun1). rewrite Hrun3, Hrun2.
  f_equal. rewrite set_objects_twice. f_equal.
  apply list_eq. intros j.
  destruct (objects st !! j) as [o|] eqn:Ho.
  - destruct Ht1 as [_ Ht1]. destruct Ht3 as [_ Ht3]. destruct Ht2 as [_ Ht2].
    assert (Hbelow : below (objects st) i j -> l3 !! j = l2 !! j).
    { intros Hb. rewrite (Hc2 j o Ho Hb).
      pose proof (Hc1 j o Ho Hb) as E1.
      rewrite (Hc3 j _ E1); [done|].
      now apply touched_below with (objects st) (negb (truthy b1)) (below (objects st) i);
        [split|]. }
    destruct (Ht1 j o Ho) as [E1|[Hb _]]; [|now apply Hbelow].
    destruct (Ht3 j o E1) as [E3|[Hb3 _]].
    + destruct (Ht2 j o Ho) as [E2|[Hb _]]; [congruence|now apply Hbelow].
    + apply Hbelow.
      now apply below_touched with l1 (negb (truthy b1)) (below (objects st) i); [split|].
  - apply lookup_ge_None in Ho.
    rewrite !(proj2 (lookup_ge_None _ _)); [done| |].
    + destruct Ht2 as [-> _]. done.
    + destruct Ht3 as [-> _]. now rewrite Hlen1.
Qed.

(** X1: on an object whose subtree is no deeper than the nesting of
    calls the interpreter still allows, [Enable] twice, whatever the two
    values, is [Enable] with the second value: the later modifier
    decides the whole subtree, and [Enable] with the same value is
    idempotent. *)
Theorem Enable_last_wins (H : Host) (h : nat -> nat) (i : nat) (dic1 dic2 : pydict)
    (mp1 mp2 : params) (x1 x2 : bool) (st : State) :
  g_bInBlenderContext st = true ->
  CheckConfigType H dic1 "/catharsys/blender/modify/object/enable:1.0" = true ->
  CheckConfigType H dic2 "/catharsys/blender/modify/object/enable:1.0" = true ->
  paramclass_init CEnableParams dic1 = Ok mp1 ->
  paramclass_init CEnableParams dic2 = Ok mp2 ->
  getattr_param mp1 "xValue" = Ok (VBool x1) ->
  getattr_param mp2 "xValue" = Ok (VBool x2) ->
  acyclic (objects st) h ->
  i < length (objects st) ->
  h i < recursion_limit H ->
  bind (Enable H i dic1) (fun _ => Enable H i dic2) st = Enable H i dic2 st.
Proof.
  intros Hctx Hd1 Hd2 Hi1 Hi2 Hx1 Hx2 Hac Hlt Hdepth.
  rewrite (Enable_run H i dic2 mp2 x2 st) by done.
  rewrite <- (runs_on_twice h (VBool x1) (VBool x2) (recursion_limit H) i st Hac Hlt Hdepth).
  unfold bind. rewrite (Enable_run H i dic1 mp1 x1 st) by done.
  destruct (_EnableRender_run h (VBool x1) (recursion_limit H) i st Hac Hdepth Hlt)
    as (l1 & Hrun1 & Ht1 & Hc1).
  rewrite Hrun1. now apply Enable_run with mp2.
Qed.

Lemma Enable_last_wins_witness :
  g_bInBlenderContext demo_state = true /\
  CheckConfigType demo_host (demo_enable_config true)
    "/catharsys/blender/modify/object/enable:1.0" = true /\
  CheckConfigType demo_host (demo_enable_config false)
    "/catharsys/blender/modify/object/enable:1.0" = true /\
  acyclic (objects demo_state) demo_height /\
  0 < length (objects demo_state) /\
  demo_height 0 < recursion_limit demo_host /\
  bind (Enable demo_host 0 (demo_enable_config true))
       (fun _ => Enable demo_host 0 (demo_enable_config false)) demo_state
  = Enable demo_host 0 (demo_enable_config false) demo_state.
Proof.
  split; [reflexivity|]. split; [reflexivity|]. split; [reflexivity|].
  split; [exact demo_acyclic|]. split; [simpl; lia|]. split; [simpl; lia|].
  apply (Enable_last_wins demo_host demo_height 0 _ _
           [("sDTI", VStr "/catharsys/blender/modify/object/enable:1.0");
            ("xValue", VBool true)]
           [("sDTI", VStr "/catharsys/blender/modify/object/enable:1.0");
            ("xValue", VBool false)] true false demo_state);
    [reflexivity | reflexivity | reflexivity | reflexivity | reflexivity | reflexivity
    | reflexivity | exact demo_acyclic | simpl; lia | simpl; lia].
Defined.

(** X2: in a hierarchy without cycles, [Enable] on an object of the
    scene whose subtree is no deeper than the nesting of calls the
    interpreter still allows fails only before it touches anything:
    when the assertion on the Blender context fails, on a configuration
    of another type, or on a configuration the parameter class rejects;
    and then the state is as it was. *)
Theorem Enable_fails_untouched (H : Host) (h : nat -> nat) (i : nat) (dic : pydict)
    (st st' : State) (e : exn) :
  acyclic (objects st) h ->
  i < length (objects st) ->
  h i < recursion_limit H ->
  Enable H i dic st = (Raise e, st') ->
  st' = st /\
  (g_bInBlenderContext st = false \/
   CheckConfigType H dic "/catharsys/blender/modify/object/enable:1.0" = false \/
   exists f w, e = ParamError f w).
Proof.
  intros Hac Hlt Hdepth.
  unfold Enable, bind, assert_in_blender, AssertConfigType, lift, gets, ret, raise.
  destruct (g_bInBlenderContext st) eqn:Hctx; [|intros [= <- <-]; auto].
  destruct (CheckConfigType H dic _) eqn:Hdti; [|intros [= <- <-]; auto].
  destruct (paramclass_init CEnableParams dic) as [mp|e0] eqn:Hinit.
  - destruct (CEnableParams_init _ _ Hinit) as (d & x & ->).
    change (getattr_param [("sDTI", VStr d); ("xValue", VBool x)] "xValue")
      with (Ok (VBool x)).
    destruct (_EnableRender_run h (VBool x) (recursion_limit H) i st Hac Hdepth Hlt)
      as (l1 & Hrun1 & _).
    rewrite Hrun1. discriminate.
  - intros [= <- <-]. split; [done|]. right. right.
    now apply paramclass_init_raise with CEnableParams dic.
Qed.

Lemma Enable_fails_untouched_witness :
  acyclic (objects demo_state) demo_height /\
  0 < length (objects demo_state) /\
  demo_height 0 < recursion_limit demo_host /\
  Enable demo_host 0 [dti "/catharsys/blender/modify/object/enable:1.0"] demo_state
  = (Raise (ParamError "xValue" "missing"), demo_state) /\
  demo_state = demo_state /\
  (g_bInBlenderContext demo_state = false \/
   CheckConfigType demo_host [dti "/catharsys/blender/modify/object/enable:1.0"]
     "/catharsys/blender/modify/object/enable:1.0" = false \/
   exists f w, ParamError "xValue" "missing" = ParamError f w).
Proof.
  split; [exact demo_acyclic|]. split; [simpl; lia|]. split; [simpl; lia|].
  split; [reflexivity|].
  apply (Enable_fails_untouched demo_host demo_height 0
           [dti "/catharsys/blender/modify/object/enable:1.0"] demo_state demo_state
           (ParamError "xValue" "missing") demo_acyclic);
    [simpl; lia | simpl; lia | reflexivity].
Defined.

(** ** EnableIfBoundBox *)

(** Case analysis on everything a run of a modifier depends on. *)
Ltac run_cases :=
  repeat (
    cbv beta iota in *; simplify_eq;
    unfold bind, lift, gets, ret, raise, modify, get_obj, put_obj, upd_obj, host_call,
      assert_in_blender, objects_get in *;
    match goal with
    | E : context [match ?x with _ => _ end] |- _ =>
        lazymatch x with
        | context [match _ with _ => _ end] => fail
        | _ => destruct x eqn:?
        end
    end).

(** X3: whatever the class object holds, [EnableIfBoundBox] does one of
    two things: it raises and leaves the state as it was, or it makes
    exactly one call of [anyobj.Hide] on the object, recursive, with the
    same flag for the viewport and for the render, and changes nothing
    else. *)
Theorem EnableIfBoundBox_effect (H : Host) (i : nat) (dic : pydict) (st st' : State)
    (r : outcome unit) :
  EnableIfBoundBox H i dic st = (r, st') ->
  (exists e, r = Raise e /\ st' = st) \/
  (exists b, r = Ok tt /\ st' = add_call (CallHide i b b true) st).
Proof.
  intros E. unfold EnableIfBoundBox, AssertConfigType in E.
  run_cases; simplify_eq; eauto.
Qed.

Lemma EnableIfBoundBox_effect_witness :
  EnableIfBoundBox demo_host_values 2 demo_boundbox_config_2 demo_state
  = (Ok tt, add_call (CallHide 2 false false true) demo_state) /\
  ((exists e, Ok tt = Raise e /\
              add_call (CallHide 2 false false true) demo_state = demo_state) \/
   (exists b, Ok tt = Ok tt /\
              add_call (CallHide 2 false false true) demo_state
              = add_call (CallHide 2 b b true) demo_state)).
Proof.
  split; [reflexivity|].
  apply (EnableIfBoundBox_effect demo_host_values 2 demo_boundbox_config_2). reflexivity.
Defined.

(** ** LogObject *)

Lemma dict_get_dict_set (d : pydict) (k : string) (v : pyval) :
  dict_get (dict_set d k v) k = Some v.
Proof.
  induction d as [|[k' v'] d IH]; simpl.
  - now rewrite bool_decide_eq_true_2.
  - destruct k'; simpl; try exact IH.
    case_bool_decide; simpl.
    + now rewrite bool_decide_eq_true_2.
    + now rewrite bool_decide_eq_false_2.
Qed.

Lemma dict_get_dict_set_ne (d : pydict) (k k' : string) (v : pyval) :
  k <> k' -> dict_get (dict_set d k v) k' = dict_get d k'.
Proof.
  intros Hne. induction d as [|[k0 v0] d IH]; simpl.
  - now rewrite bool_decide_eq_false_2.
  - destruct k0; simpl; try exact IH.
    case_bool_decide; simpl.
    + subst. now rewrite !bool_decide_eq_false_2.
    + case_bool_decide; [done|exact IH].
Qed.

(** One round of the loop: the state stays, and the dict gets the
    entry for the name, or the name is not a string or not found. *)
Lemma LogObject_attr_run (H : Host) (i : nat) (o : BObject) (d : pydict) (sAttr : pyval)
    (st : State) :
  objects st !! i = Some o ->
  LogObject_attr H i d sAttr st
  = match sAttr with
    | VStr a =>
        match logged_value H (objects st) i o a with
        | Some x => (Ok (dict_set d a x), st)
        | None => (Raise (KeyError (Msg "Attribute {} not in {}" [sAttr; VStr (name o)])), st)
        end
    | _ => (Raise (TypeError "attribute name must be string"), st)
    end.
Proof.
  intros Ho. unfold LogObject_attr, bind. rewrite (get_obj_some _ _ _ Ho).
  destruct sAttr; try reflexivity.
  unfold logged_value. destruct (props o !! s) as [v|].
  - unfold ret. now destruct (json_loads H v).
  - unfold gets. destruct (py_getattr H (objects st) i [] s) as [v|]; [|reflexivity].
    unfold ret. simpl. now destruct (json_loads H v).
Qed.




(** X5: when the loop over the attribute names succeeds, the dict it
    returns has, for every name of the list, the value of the custom
    property of that name if the object has one, and else of the
    attribute, parsed as JSON where it parses; in particular a custom
    property hides an attribute of the same name.  Entries of names
    that are not in the list are as they were. *)
Theorem LogObject_loop_entries (H : Host) (i : nat) (o : BObject) (l : list pyval) :
  forall (d0 d : pydict) (st st' : State),
    objects st !! i = Some o ->
    LogObject_loop H i d0 l st = (Ok d, st') ->
    forall a,
      if existsb (fun x => is_str x a) l
      then dict_get d a = logged_value H (objects st) i o a /\ is_Some (dict_get d a)
      else dict_get d a = dict_get d0 a.
Proof.
  induction l as [|x l IH]; simpl; intros d0 d st st' Ho E a.
  - now injection E as <- <-.
  - unfold bind in E. rewrite (LogObject_attr_run H i o d0 x st Ho) in E.
    destruct x as [| | | |s| | |]; try discriminate E.
    destruct (logged_value H (objects st) i o s) as [v|] eqn:Hv; [|discriminate E].
    specialize (IH _ _ _ _ Ho E a).
    destruct (existsb (fun x => is_str x a) l).
    + now rewrite orb_true_r.
    + rewrite orb_false_r. rewrite IH. simpl. case_bool_decide as Hsa.
      * subst a. rewrite dict_get_dict_set, Hv. split; [done|eauto].
      * now apply dict_get_dict_set_ne.
Qed.

Lemma LogObject_loop_entries_witness :
  objects demo_state !! 0 = Some demo_rig /\
  LogObject_loop demo_host_values 0 [] [VStr "name"; VStr "speed"] demo_state
  = (Ok [(VStr "name", VStr "Rig"); (VStr "speed", VInt 3)], demo_state) /\
  dict_get [(VStr "name", VStr "Rig"); (VStr "speed", VInt 3)] "speed"
  = logged_value demo_host_values (objects demo_state) 0 demo_rig "speed" /\
  is_Some (dict_get [(VStr "name", VStr "Rig"); (VStr "speed", VInt 3)] "speed").
Proof.
  split; [reflexivity|]. split; [reflexivity|].
  exact (LogObject_loop_entries demo_host_values 0 demo_rig [VStr "name"; VStr "speed"]
           [] _ demo_state demo_state eq_refl eq_refl "speed").
Defined.

(** X6: when the object has neither a custom property nor an attribute
    of some name of the list, and the names before it are found, the
    loop raises [KeyError] with that name and the name of the object,
    whatever comes after it in the list. *)
Theorem LogObject_loop_first_missing (H : Host) (i : nat) (o : BObject) (l : list pyval) :
  forall (n : nat) (a : string) (d0 : pydict) (st : State),
    objects st !! i = Some o ->
    l !! n = Some (VStr a) ->
    logged_value H (objects st) i o a = None ->
    (forall m x, m < n -> l !! m = Some x ->
       exists s, x = VStr s /\ is_Some (logged_value H (objects st) i o s)) ->
    LogObject_loop H i d0 l st
    = (Raise (KeyError (Msg "Attribute {} not in {}" [VStr a; VStr (name o)])), st).
Proof.
  induction l as [|x l IH]; intros n a d0 st Ho Hn Hmiss Hbefore; [done|].
  simpl. unfold bind. rewrite (LogObject_attr_run H i o d0 x st Ho).
  destruct n as [|n]; simpl in Hn.
  - injection Hn as ->. now rewrite Hmiss.
  - destruct (Hbefore 0 x) as (s & -> & [v Hv]); [lia|done|].
    rewrite Hv. apply (IH n); [done..|].
    intros m y Hm Hy. apply (Hbefore (S m)); [lia|done].
Qed.

Lemma LogObject_loop_first_missing_witness :
  objects demo_state !! 0 = Some demo_rig /\
  [VStr "name"; VStr "lens"; VStr "speed"] !! 1 = Some (VStr "lens") /\
  logged_value demo_host_values (objects demo_state) 0 demo_rig "lens" = None /\
  LogObject_loop demo_host_values 0 [] [VStr "name"; VStr "lens"; VStr "speed"] demo_state
  = (Raise (KeyError (Msg "Attribute {} not in {}" [VStr "lens"; VStr "Rig"])), demo_state).
Proof.
  split; [reflexivity|]. split; [reflexivity|]. split; [reflexivity|].
  apply (LogObject_loop_first_missing demo_host_values 0 demo_rig
           [VStr "name"; VStr "lens"; VStr "speed"] 1 "lens" [] demo_state
           eq_refl eq_refl eq_refl).
  intros m x Hm Hx. destruct m as [|m]; [|lia].
  injection Hx as <-. exists "name". split; [reflexivity|]. eexists. reflexivity.
Defined.

(** ** The loop of ModifyProperties *)

(** X8: for a custom property the object has, the loop body accepts
    the values whose type is [bool], [float] or [str] and the integers
    that fit a C [int] (a [bool] passes as an [int]), and then the
    property holds the value.  An integer that does not fit is refused
    by the host with [OverflowError]; [None], lists, dicts and other
    objects are refused by the loop body with the error that names the
    type; and a refused value leaves the state as it was. *)
Theorem ModifyProperties_entry_accepts (H : Host) (i : nat) (o : BObject) (sKey : string)
    (xValue : pyval) (st : State) :
  objects st !! i = Some o ->
  is_Some (props o !! sKey) ->
  ModifyProperties_entry H i (VStr sKey, xValue) st
  = if match xValue with
       | VInt z => fits_c_int z
       | VBool _ | VFloat _ | VStr _ => true
       | _ => false
       end
    then (Ok tt,
          set_objects (<[i := set_props (<[sKey := xValue]> (props o)) o]> (objects st)) st)
    else match xValue with
         | VInt _ => (Raise (OverflowError "Python int too large to convert to C int"), st)
         | _ => (Raise (RuntimeError
                          (Msg "Value for property '{}' of unsupported type '{}'"
                               [VStr sKey; VStr (ToTypename H xValue)])), st)
         end.
Proof.
  intros Ho Hk. unfold ModifyProperties_entry, bind. rewrite (get_obj_some _ _ _ Ho).
  rewrite bool_decide_eq_true_2 by done. simpl negb. cbv iota.
  destruct xValue; simpl; try reflexivity.
  now destruct (fits_c_int z).
Qed.

Lemma ModifyProperties_entry_accepts_witness :
  objects demo_state !! 0 = Some demo_rig /\
  is_Some (props demo_rig !! "speed") /\
  ModifyProperties_entry demo_host 0 (VStr "speed", VBool true) demo_state
  = (Ok tt,
     set_objects (<[0 := set_props (<["speed" := VBool true]> (props demo_rig)) demo_rig]>
                    (objects demo_state)) demo_state) /\
  ModifyProperties_entry demo_host 0 (VStr "speed", VInt (2 ^ 31 - 1)) demo_state
  = (Ok tt,
     set_objects (<[0 := set_props (<["speed" := VInt (2 ^ 31 - 1)]> (props demo_rig))
                           demo_rig]>
                    (objects demo_state)) demo_state) /\
  ModifyProperties_entry demo_host 0 (VStr "speed", VInt (2 ^ 31)) demo_state
  = (Raise (OverflowError "Python int too large to convert to C int"), demo_state) /\
  ModifyProperties_entry demo_host 0 (VStr "speed", VList []) demo_state
  = (Raise (RuntimeError (Msg "Value for property '{}' of unsupported type '{}'"
                              [VStr "speed"; VStr "list"])), demo_state).
Proof.
  assert (Hk : is_Some (props demo_rig !! "speed")) by (eexists; reflexivity).
  split; [reflexivity|]. split; [exact Hk|]. split; [|split; [|split]].
  - exact (ModifyProperties_entry_accepts demo_host 0 demo_rig "speed" (VBool true)
             demo_state eq_refl Hk).
  - exact (ModifyProperties_entry_accepts demo_host 0 demo_rig "speed" (VInt (2 ^ 31 - 1))
             demo_state eq_refl Hk).
  - exact (ModifyProperties_entry_accepts demo_host 0 demo_rig "speed" (VInt (2 ^ 31))
             demo_state eq_refl Hk).
  - exact (ModifyProperties_entry_accepts demo_host 0 demo_rig "speed" (VList [])
             demo_state eq_refl Hk).
Defined.

Lemma set_props_same (o : BObject) : set_props (props o) o = o.
Proof. now destruct o. Qed.

(** The loop body keeps to the custom properties the object has. *)
Lemma ModifyProperties_entry_frame (H : Host) (i : nat) (item : pyval * pyval)
    (st st' : State) (r : outcome unit) :
  ModifyProperties_entry H i item st = (r, st') ->
  st' = st \/
  exists o k v,
    objects st !! i = Some o /\ is_Some (props o !! k) /\
    st' = set_objects (<[i := set_props (<[k := v]> (props o)) o]> (objects st)) st.
Proof.
  destruct item as [sKey xValue]. unfold ModifyProperties_entry.
  destruct sKey; try (unfold raise; intros [= <- <-]; now left).
  unfold bind, get_obj, raise.
  destruct (objects st !! i) as [o|] eqn:Ho; [|intros [= <- <-]; now left].
  case_bool_decide as Hk; simpl; [|intros [= <- <-]; now left].
  destruct (_ || _); [|intros [= <- <-]; now left].
  unfold assign_prop, put_obj, modify, raise.
  destruct xValue; try (intros [= <- <-]; right; eauto 10).
  destruct (fits_c_int z); intros [= <- <-]; [right; eauto 10|now left].
Qed.

(** X9: the loop of [ModifyProperties], whether it ends or raises,
    changes nothing but the values of custom properties of the object:
    the object keeps the set of its custom properties (none is added,
    none removed) and all its other fields, every other object is as
    it was, and so is the rest of the state. *)
Theorem ModifyProperties_loop_frame (H : Host) (i : nat) (items : pydict) :
  forall (st st' : State) (r : outcome unit),
    ModifyProperties_loop H i items st = (r, st') ->
    st' = set_objects (objects st') st /\
    length (objects st') = length (objects st) /\
    (forall j, j <> i -> objects st' !! j = objects st !! j) /\
    (forall o, objects st !! i = Some o ->
       exists m, objects st' !! i = Some (set_props m o) /\ dom m = dom (props o)).
Proof.
  unfold ModifyProperties_loop.
  induction items as [|item items IH]; simpl; intros st st' r E.
  - injection E as <- <-. split; [now rewrite set_objects_same|]. split; [done|].
    split; [done|]. intros o Ho. exists (props o). now rewrite set_props_same.
  - unfold bind in E.
    destruct (ModifyProperties_entry H i item st) as [[[]|e] st1] eqn:Eentry.
    + apply ModifyProperties_entry_frame in Eentry as [->|(o & k & v & Ho & Hk & ->)];
        [now apply IH in E|].
      apply IH in E as (Hst & Hlen & Hother & Hself). simpl in *.
      apply lookup_lt_Some in Ho as Hlt.
      split; [rewrite Hst at 1; reflexivity|].
      split; [now rewrite Hlen, length_insert|].
      split.
      * intros j Hj. rewrite (Hother j Hj). now apply list_lookup_insert_ne.
      * intros o' Ho'. rewrite Ho in Ho'. injection Ho' as <-.
        destruct (Hself (set_props (<[k := v]> (props o)) o)) as (m & Hm & Hdom).
        { now apply list_lookup_insert_eq. }
        exists m. split; [exact Hm|].
        rewrite Hdom. simpl. now apply dom_insert_lookup_L.
    + injection E as <- <-.
      apply ModifyProperties_entry_frame in Eentry as [->|(o & k & v & Ho & Hk & ->)].
      * split; [now rewrite set_objects_same|]. split; [done|].
        split; [done|]. intros o Ho. exists (props o). now rewrite set_props_same.
      * simpl. apply lookup_lt_Some in Ho as Hlt.
        split; [done|]. split; [apply length_insert|].
        split; [intros j Hj; now apply list_lookup_insert_ne|].
        intros o' Ho'. rewrite Ho in Ho'. injection Ho' as <-.
        eexists. split; [now apply list_lookup_insert_eq|].
        simpl. now apply dom_insert_lookup_L.
Qed.

Lemma ModifyProperties_loop_frame_witness :
  ModifyProperties_loop demo_host 0 demo_property_items demo_state
  = (Raise (RuntimeError (Msg "Property '{}' not found in object '{}'"
                              [VStr "gear"; VStr "Rig"])),
     set_objects (<[0 := set_props {[ "speed" := VInt 5 ]} demo_rig]> (objects demo_state))
       demo_state) /\
  exists m,
    objects (snd (ModifyProperties_loop demo_host 0 demo_property_items demo_state)) !! 0
    = Some (set_props m demo_rig) /\
    dom m = dom (props demo_rig).
Proof.
  split; [reflexivity|].
  destruct (ModifyProperties_loop_frame demo_host 0 demo_property_items demo_state _ _
              eq_refl) as (_ & _ & _ & Hself).
  exact (Hself demo_rig eq_refl).
Defined.

(** ** ModifyAttributes *)

Lemma for_each_app {A : Type} (body : A -> M unit) (l1 l2 : list A) (st : State) :
  for_each (l1 ++ l2) body st
  = bind (for_each l1 body) (fun _ => for_each l2 body) st.
Proof.
  revert st. induction l1 as [|x l1 IH]; simpl; intros st; [reflexivity|].
  unfold bind in *. destruct (body x st) as [[[]|e] st1]; [apply IH|reflexivity].
Qed.

Lemma ModifyAttributes_entry_context (H : Host) (i : nat) (item : pyval * pyval)
    (st st' : State) (r : outcome unit) :
  ModifyAttributes_entry H i item st = (r, st') ->
  g_bInBlenderContext st' = g_bInBlenderContext st.
Proof.
  destruct item as [sKey xValue]. unfold ModifyAttributes_entry.
  destruct sKey; try (unfold raise; now intros [= <- <-]).
  unfold bind, get_obj, gets, lift, raise, try_setattr.
  destruct (objects st !! i) as [o|]; [|now intros [= <- <-]].
  destruct (walk _ _ _ _ _ _ _) as [[objY [k|]]|]; try (now intros [= <- <-]).
  destruct (py_setattr H (objects st) i objY k xValue); now intros [= <- <-].
Qed.

Lemma ModifyAttributes_loop_context (H : Host) (i : nat) (items : pydict) :
  forall (st st' : State) (r : outcome unit),
    ModifyAttributes_loop H i items st = (r, st') ->
    g_bInBlenderContext st' = g_bInBlenderContext st.
Proof.
  unfold ModifyAttributes_loop.
  induction items as [|item items IH]; simpl; intros st st' r E.
  - now injection E as <- <-.
  - unfold bind in E.
    destruct (ModifyAttributes_entry H i item st) as [[[]|e] st1] eqn:Eentry.
    + apply IH in E. rewrite E. now apply ModifyAttributes_entry_context in Eentry.
    + injection E as <- <-. now apply ModifyAttributes_entry_context in Eentry.
Qed.

(** X10: a values map can be split: inside Blender, [ModifyAttributes]
    on a configuration whose values map is the items of one
    configuration followed by the items of another is [ModifyAttributes]
    on the first and then, if that succeeds, on the second; if the
    first raises, so does the whole, with the same error and state. *)
Theorem ModifyAttributes_split (H : Host) (i : nat) (dic dic1 dic2 : pydict)
    (mp mp1 mp2 : params) (l1 l2 : pydict) (st : State) :
  g_bInBlenderContext st = true ->
  paramclass_init CModifyAttributesParams dic = Ok mp ->
  paramclass_init CModifyAttributesParams dic1 = Ok mp1 ->
  paramclass_init CModifyAttributesParams dic2 = Ok mp2 ->
  getattr_param mp "mValues" = Ok (VDict (l1 ++ l2)) ->
  getattr_param mp1 "mValues" = Ok (VDict l1) ->
  getattr_param mp2 "mValues" = Ok (VDict l2) ->
  ModifyAttributes H i dic st
  = bind (ModifyAttributes H i dic1) (fun _ => ModifyAttributes H i dic2) st.
Proof.
  intros Hctx Hi Hi1 Hi2 Hv Hv1 Hv2.
  destruct (ModifyAttributes_runs_loop H i dic mp st Hctx Hi) as (l & Hl & ->).
  destruct (ModifyAttributes_runs_loop H i dic1 mp1 st Hctx Hi1) as (l1' & Hl1 & E1).
  rewrite Hv in Hl. injection Hl as <-. rewrite Hv1 in Hl1. injection Hl1 as <-.
  unfold bind. rewrite E1. unfold ModifyAttributes_loop at 1. rewrite for_each_app.
  unfold bind. fold (ModifyAttributes_loop H i l1).
  destruct (ModifyAttributes_loop H i l1 st) as [[[]|e] st1] eqn:Eloop; [|reflexivity].
  apply ModifyAttributes_loop_context in Eloop. rewrite Hctx in Eloop.
  destruct (ModifyAttributes_runs_loop H i dic2 mp2 st1 Eloop Hi2) as (l2' & Hl2 & ->).
  rewrite Hv2 in Hl2. now injection Hl2 as <-.
Qed.

Lemma ModifyAttributes_split_witness :
  g_bInBlenderContext demo_state = true /\
  ModifyAttributes demo_host 0
    (demo_attributes_config [(VStr "name", VStr "Base"); (VStr "location.x", VInt 5)])
    demo_state
  = bind (ModifyAttributes demo_host 0 (demo_attributes_config [(VStr "name", VStr "Base")]))
         (fun _ => ModifyAttributes demo_host 0
                     (demo_attributes_config [(VStr "location.x", VInt 5)]))
         demo_state.
Proof.
  split; [reflexivity|].
  apply (ModifyAttributes_split demo_host 0 _ _ _
           [("sDTI", VStr "/catharsys/blender/modify/object/attributes:1.0");
            ("mValues", VDict [(VStr "name", VStr "Base"); (VStr "location.x", VInt 5)])]
           [("sDTI", VStr "/catharsys/blender/modify/object/attributes:1.0");
            ("mValues", VDict [(VStr "name", VStr "Base")])]
           [("sDTI", VStr "/catharsys/blender/modify/object/attributes:1.0");
            ("mValues", VDict [(VStr "location.x", VInt 5)])]
           [(VStr "name", VStr "Base")] [(VStr "location.x", VInt 5)] demo_state);
    reflexivity.
Defined.

(** X11: the deprecated key [dValues] is still read: inside Blender, a
    configuration that gives the values map under [dValues] and has no
    [mValues] runs the loop over that map, as it would under
    [mValues]. *)
Theorem ModifyAttributes_deprecated_key (H : Host) (i : nat) (dic : pydict) (sDTI : string)
    (items : pydict) (st : State) :
  g_bInBlenderContext st = true ->
  dict_get dic "sDTI" = Some (VStr sDTI) ->
  dict_get dic "mValues" = None ->
  dict_get dic "dValues" = Some (VDict items) ->
  ModifyAttributes H i dic st = ModifyAttributes_loop H i items st.
Proof.
  intros Hctx Hd Hm Hv.
  assert (Hinit : paramclass_init CModifyAttributesParams dic
                  = Ok [("sDTI", VStr sDTI); ("mValues", VDict items)]).
  { unfold CModifyAttributesParams, paramclass_init, init_field, field_sDTI. simpl.
    now rewrite Hd, Hm, Hv. }
  destruct (ModifyAttributes_runs_loop H i dic _ st Hctx Hinit) as (l & Hl & ->).
  vm_compute in Hl. now injection Hl as <-.
Qed.

Lemma ModifyAttributes_deprecated_key_witness :
  g_bInBlenderContext demo_state = true /\
  dict_get (demo_attributes_config_deprecated [(VStr "location.x", VInt 5)]) "mValues" = None /\
  dict_get (demo_attributes_config_deprecated [(VStr "location.x", VInt 5)]) "dValues"
  = Some (VDict [(VStr "location.x", VInt 5)]) /\
  ModifyAttributes demo_host 0
    (demo_attributes_config_deprecated [(VStr "location.x", VInt 5)]) demo_state
  = ModifyAttributes_loop demo_host 0 [(VStr "location.x", VInt 5)] demo_state.
Proof.
  split; [reflexivity|]. split; [reflexivity|]. split; [reflexivity|].
  apply (ModifyAttributes_deprecated_key demo_host 0 _
           "/catharsys/blender/modify/object/attributes:1.0"); reflexivity.
Defined.

(** ** RenameObject *)

(** X13: [RenameObject] changes the name of the object and nothing
    else: when it raises, the state is as it was; when it succeeds,
    the object has a new name, is otherwise as before, and every other
    object and the rest of the state are untouched. *)
Theorem RenameObject_effect (H : Host) (i : nat) (dic : pydict) (st st' : State)
    (r : outcome unit) :
  RenameObject H i dic st = (r, st') ->
  (exists e, r = Raise e /\ st' = st) \/
  (exists o sNewName,
     r = Ok tt /\ objects st !! i = Some o /\
     st' = set_objects (<[i := set_name sNewName o]> (objects st)) st).
Proof.
  intros E. unfold RenameObject, bind, lift in E.
  destruct (paramclass_init CRenameObjectParams dic) as [mp|e] eqn:Hinit;
    [|left; simplify_eq; eauto].
  destruct (CRenameObjectParams_init _ _ Hinit) as (d & sR & b & sS & ->).
  unfold get_obj in E.
  destruct (objects st !! i) as [o|] eqn:Ho; [|left; simplify_eq; eauto].
  revert E. run_params. rename_steps.
  destruct b; cbv beta iota; unfold re_sub.
  - destruct (re_finditer H sS (name o)) as [ms|]; [|intros [= <- <-]; eauto].
    destruct (re_template H sS sR) as [expand|]; [|intros [= <- <-]; eauto].
    rewrite (assign_name_run _ _ _ _ _ Ho). intros [= <- <-]. eauto 10.
  - rewrite (assign_name_run _ _ _ _ _ Ho). intros [= <- <-]. eauto 10.
Qed.

Lemma RenameObject_effect_witness :
  RenameObject demo_host 2 demo_rename_regex demo_state
  = (Ok tt, set_objects (<[2 := set_name "WhXXl" demo_wheel]> (objects demo_state)) demo_state)
  /\
  exists o sNewName,
    objects demo_state !! 2 = Some o /\
    snd (RenameObject demo_host 2 demo_rename_regex demo_state)
    = set_objects (<[2 := set_name sNewName o]> (objects demo_state)) demo_state.
Proof.
  split; [reflexivity|].
  destruct (RenameObject_effect demo_host 2 demo_rename_regex demo_state _ _ eq_refl)
    as [(e & He & _)|(o & s & _ & Ho & Hst)]; [discriminate He|].
  exists o, s. auto.
Defined.

(** With [bUseRegEx] false the setter of the name is given
    [sReplace]. *)
Lemma RenameObject_literal_run (H : Host) (i : nat) (o : BObject) (dic : pydict)
    (sDTI sReplace sSearch : string) (st : State) :
  objects st !! i = Some o ->
  paramclass_init CRenameObjectParams dic
  = Ok [("sDTI", VStr sDTI); ("sReplace", VStr sReplace);
        ("bUseRegEx", VBool false); ("sSearch", VStr sSearch)] ->
  RenameObject H i dic st
  = (Ok tt,
     set_objects
       (<[i := set_name (unique_name H (other_names (objects st) i) sReplace) o]> (objects st))
       st).
Proof.
  intros Ho Hinit. unfold RenameObject, bind, lift.
  rewrite Hinit, (get_obj_some _ _ _ Ho). run_params. rename_steps.
  now apply assign_name_run.
Qed.

(** The names of the other objects do not depend on the object
    itself. *)
Lemma other_names_insert (l : list BObject) (i : nat) (o : BObject) :
  other_names (<[i := o]> l) i = other_names l i.
Proof.
  unfold other_names. f_equal. revert i.
  induction l as [|x l IH]; intros [|i]; simpl; try reflexivity. f_equal. apply IH.
Qed.

(** X14: of two literal renamings in a row the second decides: the
    result is that of the second alone, and a literal renaming done
    twice is the same as done once. *)
Theorem RenameObject_literal_last_wins (H : Host) (i : nat) (o : BObject)
    (dic1 dic2 : pydict) (mp1 mp2 : params) (st : State) :
  objects st !! i = Some o ->
  paramclass_init CRenameObjectParams dic1 = Ok mp1 ->
  paramclass_init CRenameObjectParams dic2 = Ok mp2 ->
  getattr_param mp1 "bUseRegEx" = Ok (VBool false) ->
  getattr_param mp2 "bUseRegEx" = Ok (VBool false) ->
  bind (RenameObject H i dic1) (fun _ => RenameObject H i dic2) st
  = RenameObject H i dic2 st.
Proof.
  intros Ho Hi1 Hi2 Hb1 Hb2.
  destruct (CRenameObjectParams_init _ _ Hi1) as (d1 & r1 & b1 & s1 & ->).
  destruct (CRenameObjectParams_init _ _ Hi2) as (d2 & r2 & b2 & s2 & ->).
  vm_compute in Hb1, Hb2. injection Hb1 as ->. injection Hb2 as ->.
  unfold bind. rewrite (RenameObject_literal_run H i o dic1 d1 r1 s1 st Ho Hi1).
  apply lookup_lt_Some in Ho as Hlt.
  rewrite (RenameObject_literal_run H i
             (set_name (unique_name H (other_names (objects st) i) r1) o) dic2 d2 r2 s2 _);
    [|simpl; now apply list_lookup_insert_eq|done].
  rewrite (RenameObject_literal_run H i o dic2 d2 r2 s2 st Ho Hi2).
  simpl. now rewrite other_names_insert, list_insert_insert_eq.
Qed.

Lemma RenameObject_literal_last_wins_witness :
  objects demo_state !! 2 = Some demo_wheel /\
  bind (RenameObject demo_host 2 demo_rename_literal)
       (fun _ => RenameObject demo_host 2 demo_rename_literal_2) demo_state
  = RenameObject demo_host 2 demo_rename_literal_2 demo_state.
Proof.
  split; [reflexivity|].
  apply (RenameObject_literal_last_wins demo_host 2 demo_wheel _ _
           [("sDTI", VStr "/catharsys/blender/modify/object/rename:1.0");
            ("sReplace", VStr "Tyre"); ("bUseRegEx", VBool false); ("sSearch", VStr "e")]
           [("sDTI", VStr "/catharsys/blender/modify/object/rename:1.0");
            ("sReplace", VStr "Spare"); ("bUseRegEx", VBool false);
            ("sSearch", VStr EmptyString)]);
    reflexivity.
Defined.

(** X15: the error for a missing [sReplace] is never raised by
    [RenameObject]: the field is required and a string, so a
    configuration without it, or with [None] for it, is refused by the
    parameter class before the test is reached. *)
Theorem RenameObject_sReplace_never_None (H : Host) (i : nat) (dic : pydict) (st st' : State) :
  RenameObject H i dic st <> (Raise sReplace_not_given, st').
Proof.
  intros E. unfold RenameObject, bind, lift in E.
  destruct (paramclass_init CRenameObjectParams dic) as [mp|e] eqn:Hinit.
  - destruct (CRenameObjectParams_init _ _ Hinit) as (d & sR & b & sS & ->).
    unfold get_obj in E. destruct (objects st !! i) as [o|] eqn:Ho; [|discriminate E].
    revert E. run_params. rename_steps.
    destruct b; cbv beta iota; unfold re_sub.
    + destruct (re_finditer H sS (name o)); [|discriminate].
      destruct (re_template H sS sR); [|discriminate].
      rewrite (assign_name_run _ _ _ _ _ Ho). discriminate.
    + rewrite (assign_name_run _ _ _ _ _ Ho). discriminate.
  - destruct (paramclass_init_raise _ _ _ Hinit) as (f & w & ->). discriminate E.
Qed.

(** ** ParentToObject *)

(** X16: [ParentToObject] either raises and leaves the state as it
    was, without the update of the view layer, or succeeds with the
    update of the view layer as its last call; no object other than the
    one given is changed, and the file system is not touched. *)
Theorem ParentToObject_effect (i : nat) (dic : pydict) (st st' : State) (r : outcome unit) :
  ParentToObject i dic st = (r, st') ->
  (exists e, r = Raise e /\ st' = st) \/
  (r = Ok tt /\
   last (calls st') = Some CallViewLayerUpdate /\
   fs st' = fs st /\
   length (objects st') = length (objects st) /\
   forall j, j <> i -> objects st' !! j = objects st !! j).
Proof.
  intros E. unfold ParentToObject, bind, lift in E.
  destruct (paramclass_init CParentToObjectParams dic) as [mp|e] eqn:Hinit;
    [|left; simplify_eq; eauto].
  destruct (CParentToObjectParams_init _ _ Hinit) as (d & p & k & s & ->).
  unfold get_obj in E.
  destruct (objects st !! i) as [o|] eqn:Ho; [|left; simplify_eq; eauto].
  revert E. run_params. case_bool_decide as Hcam.
  - unfold host_call, modify. simpl. intros [= <- <-]. right.
    split; [done|]. simpl. now rewrite last_snoc.
  - simpl. unfold gets. destruct (find_name p 0 (objects st)) as [q|].
    + unfold ParentObject, bind. rewrite (upd_obj_some _ _ _ _ Ho).
      unfold host_call, modify. simpl. intros [= <- <-]. right.
      split; [done|]. simpl. split; [now rewrite last_snoc|]. split; [done|].
      split; [apply length_insert|]. intros j Hj. now apply list_lookup_insert_ne.
    + destruct s; simpl.
      * unfold ret, host_call, modify. intros [= <- <-]. right.
        split; [done|]. simpl. now rewrite last_snoc.
      * unfold raise. intros [= <- <-]. left. eauto.
Qed.

Lemma ParentToObject_effect_witness :
  ParentToObject 3 demo_parent_config demo_state
  = (Ok tt,
     add_call CallViewLayerUpdate
       (add_call (CallParentObject 0 3 (VBool true))
          (set_objects (<[3 := set_parent (Some 0) demo_lamp]> (objects demo_state))
             demo_state))) /\
  last (calls (snd (ParentToObject 3 demo_parent_config demo_state)))
  = Some CallViewLayerUpdate.
Proof.
  split; [reflexivity|].
  destruct (ParentToObject_effect 3 demo_parent_config demo_state _ _ eq_refl)
    as [(e & He & _)|(_ & Hlast & _)]; [discriminate He|exact Hlast].
Defined.

(** X17: after [ParentToObject] on an object that is not a camera, with
    a parent that is in the scene, the object is among the children of
    that parent and of no other object. *)
Theorem ParentToObject_makes_child (i : nat) (o : BObject) (dic : pydict) (mp : params)
    (sParentObject : string) (objParent : nat) (st : State) :
  objects st !! i = Some o ->
  type_ o <> "CAMERA" ->
  paramclass_init CParentToObjectParams dic = Ok mp ->
  getattr_param mp "sParentObject" = Ok (VStr sParentObject) ->
  find_name sParentObject 0 (objects st) = Some objParent ->
  exists st',
    ParentToObject i dic st = (Ok tt, st') /\
    forall q, i ∈ children (objects st') q <-> q = objParent.
Proof.
  intros Ho Hcam Hinit Hp Hfind.
  destruct (CParentToObjectParams_init _ _ Hinit) as (d & p & k & s & ->).
  vm_compute in Hp. injection Hp as ->.
  eexists. split.
  - unfold ParentToObject, bind, lift. rewrite Hinit, (get_obj_some _ _ _ Ho).
    rewrite bool_decide_eq_false_2 by done. run_params. simpl. unfold gets.
    rewrite Hfind. unfold ParentObject, bind. rewrite (upd_obj_some _ _ _ _ Ho).
    reflexivity.
  - intros q. simpl. rewrite elem_of_children.
    apply lookup_lt_Some in Ho as Hlt.
    rewrite list_lookup_insert_eq by done. split.
    + intros (oc & [= <-] & Hpar). simpl in Hpar. congruence.
    + intros ->. eexists. split; reflexivity.
Qed.

Lemma ParentToObject_makes_child_witness :
  objects demo_state !! 3 = Some demo_lamp /\
  type_ demo_lamp <> "CAMERA" /\
  find_name "Rig" 0 (objects demo_state) = Some 0 /\
  exists st',
    ParentToObject 3 demo_parent_config demo_state = (Ok tt, st') /\
    forall q, 3 ∈ children (objects st') q <-> q = 0.
Proof.
  split; [reflexivity|]. split; [discriminate|]. split; [reflexivity|].
  apply (ParentToObject_makes_child 3 demo_lamp demo_parent_config
           [("sDTI", VStr "/catharsys/blender/modify/object/parent:1.0");
            ("sParentObject", VStr "Rig"); ("bKeepTransform", VBool true);
            ("bSkipNonexistingParent", VBool false)] "Rig" 0 demo_state);
    [reflexivity | discriminate | reflexivity | reflexivity | reflexivity].
Defined.

(** ** ExportObjectObj *)

(** A run of [ExportObjectObj], by whether the directory is there. *)
Lemma ExportObjectObj_run (i : nat) (dic : pydict) (sDTI sFilePath : string)
    (bCreatePath : bool) (st : State) :
  paramclass_init CExportObjectObjParams dic
  = Ok [("sDTI", VStr sDTI); ("sFilePath", VStr sFilePath);
        ("bCreatePath", VBool bCreatePath)] ->
  let pathFile := export_path sFilePath (blend_dir st) in
  let dir := path_parent pathFile in
  ExportObjectObj i dic st
  = if bool_decide (dir ∈ fs st) then
      (Ok tt, add_call (CallExportFromScene_Obj pathFile i) st)
    else if bCreatePath then
      (Ok tt, add_call (CallExportFromScene_Obj pathFile i) (snd (mkdir_parents dir st)))
    else
      match objects st !! i with
      | Some o =>
          (Raise (RuntimeError (Msg "Export path for object ' {}' does not exist: {}"
                                    [VStr (name o); VStr (as_posix dir)])), st)
      | None => (Raise ReferenceError, st)
      end.
Proof.
  intros Hinit pathFile dir.
  unfold ExportObjectObj, bind, lift, gets. rewrite Hinit. run_params. cbv beta iota.
  change (export_path sFilePath (blend_dir st)) with pathFile.
  change (path_parent pathFile) with dir.
  unfold path_exists at 1. case_bool_decide as Hin.
  - simpl. unfold ret, path_exists. now rewrite bool_decide_eq_true_2.
  - destruct bCreatePath.
    + change (negb false && is_True (VBool true)) with true. cbv iota.
      pose proof (mkdir_parents_exists dir st) as Hex.
      destruct (mkdir_parents dir st) as [[[]|e] st1] eqn:Emk; [|discriminate Emk].
      simpl in Hex. simpl snd. now rewrite Hex.
    + change (negb false && is_True (VBool false)) with false. cbv iota.
      unfold ret, path_exists. rewrite bool_decide_eq_false_2 by done. simpl.
      unfold get_obj. now destruct (objects st !! i).
Qed.

(** X18: [ExportObjectObj] never changes an object and never removes a
    path.  When it raises, the state is as it was.  When it succeeds,
    it has made exactly one call of the exporter, and the directory of
    the exported file exists. *)
Theorem ExportObjectObj_effect (i : nat) (dic : pydict) (st st' : State) (r : outcome unit) :
  ExportObjectObj i dic st = (r, st') ->
  objects st' = objects st /\
  (forall p, p ∈ fs st -> p ∈ fs st') /\
  ((exists e, r = Raise e /\ st' = st) \/
   (exists pathFile,
      r = Ok tt /\
      calls st' = calls st ++ [CallExportFromScene_Obj pathFile i] /\
      path_parent pathFile ∈ fs st')).
Proof.
  intros E.
  destruct (paramclass_init CExportObjectObjParams dic) as [mp|e] eqn:Hinit.
  - destruct (CExportObjectObjParams_init _ _ Hinit) as (d & p & c & ->).
    rewrite (ExportObjectObj_run i dic d p c st Hinit) in E.
    set (pathFile := export_path p (blend_dir st)) in *.
    set (dir := path_parent pathFile) in *.
    case_bool_decide as Hin.
    + injection E as <- <-. split; [done|]. split; [done|]. right. exists pathFile. auto.
    + destruct c.
      * injection E as <- <-. split; [done|]. split.
        { intros q Hq. simpl. apply elem_of_app. now left. }
        right. exists pathFile. split; [done|]. split; [done|].
        pose proof (mkdir_parents_exists dir st) as Hex.
        unfold path_exists in Hex. now apply bool_decide_eq_true_1 in Hex.
      * destruct (objects st !! i); injection E as <- <-; eauto 10.
  - unfold ExportObjectObj, bind, lift in E. rewrite Hinit in E.
    injection E as <- <-. eauto 10.
Qed.

Lemma ExportObjectObj_effect_witness :
  ExportObjectObj 2 demo_export_config demo_state
  = (Ok tt,
     add_call (CallExportFromScene_Obj
                 {| absolute := true; parts := ["home"; "scenes"; "exp"; "a"; "mesh.obj"] |} 2)
       (snd (mkdir_parents {| absolute := true; parts := ["home"; "scenes"; "exp"; "a"] |}
               demo_state))) /\
  objects (snd (ExportObjectObj 2 demo_export_config demo_state)) = objects demo_state /\
  (forall p, p ∈ fs demo_state ->
             p ∈ fs (snd (ExportObjectObj 2 demo_export_config demo_state))).
Proof.
  split; [reflexivity|].
  destruct (ExportObjectObj_effect 2 demo_export_config demo_state _ _ eq_refl)
    as (Hobj & Hfs & _).
  split; [exact Hobj|exact Hfs].
Defined.

(** X19: a second export right after a successful one succeeds too and
    creates nothing: it only adds its call of the exporter, to the same
    file. *)
Theorem ExportObjectObj_again (i : nat) (dic : pydict) (st st1 : State) :
  ExportObjectObj i dic st = (Ok tt, st1) ->
  exists pathFile,
    last (calls st1) = Some (CallExportFromScene_Obj pathFile i) /\
    ExportObjectObj i dic st1 = (Ok tt, add_call (CallExportFromScene_Obj pathFile i) st1).
Proof.
  intros E.
  destruct (paramclass_init CExportObjectObjParams dic) as [mp|e] eqn:Hinit.
  - destruct (CExportObjectObjParams_init _ _ Hinit) as (d & p & c & ->).
    rewrite (ExportObjectObj_run i dic d p c st Hinit) in E.
    rewrite (ExportObjectObj_run i dic d p c st1 Hinit).
    set (pathFile := export_path p (blend_dir st)) in *.
    set (dir := path_parent pathFile) in *.
    exists pathFile. case_bool_decide as Hin.
    + injection E as <-. simpl. rewrite last_snoc. split; [done|].
      fold pathFile. fold dir. now rewrite bool_decide_eq_true_2.
    + destruct c.
      * injection E as <-. simpl. rewrite last_snoc. split; [done|].
        fold pathFile. fold dir.
        pose proof (mkdir_parents_exists dir st) as Hex. unfold path_exists in Hex.
        apply bool_decide_eq_true_1 in Hex. simpl in Hex.
        now rewrite bool_decide_eq_true_2.
      * destruct (objects st !! i); discriminate E.
  - unfold ExportObjectObj, bind, lift in E. rewrite Hinit in E. discriminate E.
Qed.

Lemma ExportObjectObj_again_witness :
  ExportObjectObj 2 demo_export_config demo_state
  = (Ok tt, snd (ExportObjectObj 2 demo_export_config demo_state)) /\
  exists pathFile,
    ExportObjectObj 2 demo_export_config (snd (ExportObjectObj 2 demo_export_config demo_state))
    = (Ok tt, add_call (CallExportFromScene_Obj pathFile 2)
                (snd (ExportObjectObj 2 demo_export_config demo_state))).
Proof.
  split; [reflexivity|].
  destruct (ExportObjectObj_again 2 demo_export_config demo_state _ eq_refl)
    as (pathFile & _ & Hrun).
  exists pathFile. exact Hrun.
Defined.

(** ** ParentToObject and Enable together *)

Lemma find_name_lt (s : string) (l : list BObject) :
  forall k q, find_name s k l = Some q -> q < k + length l.
Proof.
  induction l as [|o l IH]; simpl; intros k q E; [discriminate|].
  case_bool_decide.
  - injection E as <-. lia.
  - apply IH in E. lia.
Qed.

(** [ParentToObject] on an object that is not a camera, with a parent
    that is in the scene. *)
Lemma ParentToObject_run_found (i : nat) (o : BObject) (dic : pydict)
    (sDTI sParentObject : string) (bKeep bSkip : bool) (objParent : nat) (st : State) :
  objects st !! i = Some o ->
  type_ o <> "CAMERA" ->
  paramclass_init CParentToObjectParams dic
  = Ok [("sDTI", VStr sDTI); ("sParentObject", VStr sParentObject);
        ("bKeepTransform", VBool bKeep); ("bSkipNonexistingParent", VBool bSkip)] ->
  find_name sParentObject 0 (objects st) = Some objParent ->
  ParentToObject i dic st
  = (Ok tt,
     add_call CallViewLayerUpdate
       (add_call (CallParentObject objParent i (VBool bKeep))
          (set_objects (<[i := set_parent (Some objParent) o]> (objects st)) st))).
Proof.
  intros Ho Hcam Hinit Hfind.
  unfold ParentToObject, bind, lift. rewrite Hinit, (get_obj_some _ _ _ Ho).
  rewrite bool_decide_eq_false_2 by done. run_params. simpl. unfold gets.
  rewrite Hfind. unfold ParentObject, bind. now rewrite (upd_obj_some _ _ _ _ Ho).
Qed.

(** X20: the recursive toggle follows the hierarchy as [ParentToObject]
    leaves it: after an object has been parented to a parent found in
    the scene, and the hierarchy has no cycle and is, below the parent,
    no deeper than the nesting of calls the interpreter still allows,
    [Enable] on the parent succeeds and sets [hide_render] of the
    object too, to the negation of [xValue]. *)
Theorem ParentToObject_then_Enable (H : Host) (h : nat -> nat) (i : nat) (o : BObject)
    (dicP dicE : pydict) (mpP mpE : params) (sParentObject : string) (objParent : nat)
    (xValue : bool) (st : State) :
  g_bInBlenderContext st = true ->
  objects st !! i = Some o ->
  type_ o <> "CAMERA" ->
  paramclass_init CParentToObjectParams dicP = Ok mpP ->
  getattr_param mpP "sParentObject" = Ok (VStr sParentObject) ->
  find_name sParentObject 0 (objects st) = Some objParent ->
  CheckConfigType H dicE "/catharsys/blender/modify/object/enable:1.0" = true ->
  paramclass_init CEnableParams dicE = Ok mpE ->
  getattr_param mpE "xValue" = Ok (VBool xValue) ->
  acyclic (<[i := set_parent (Some objParent) o]> (objects st)) h ->
  h objParent < recursion_limit H ->
  exists st1 st2,
    ParentToObject i dicP st = (Ok tt, st1) /\
    Enable H objParent dicE st1 = (Ok tt, st2) /\
    hide_render <$> (objects st2 !! i) = Some (negb xValue).
Proof.
  intros Hctx Ho Hcam HiP Hp Hfind Hdti HiE Hx Hac Hdepth.
  destruct (CParentToObjectParams_init _ _ HiP) as (d & p & k & s & ->).
  vm_compute in Hp. injection Hp as ->.
  set (l1 := <[i := set_parent (Some objParent) o]> (objects st)) in *.
  set (st1 := add_call CallViewLayerUpdate
                (add_call (CallParentObject objParent i (VBool k)) (set_objects l1 st))).
  assert (Hlen : length l1 = length (objects st)) by apply length_insert.
  assert (Hq : objParent < length l1).
  { rewrite Hlen. now apply (find_name_lt sParentObject (objects st) 0). }
  assert (Hi : l1 !! i = Some (set_parent (Some objParent) o)).
  { apply list_lookup_insert_eq. now apply lookup_lt_Some in Ho. }
  destruct (_EnableRender_run h (VBool xValue) (recursion_limit H) objParent st1 Hac Hdepth Hq)
    as (l2 & Hrun & _ & Hc).
  exists st1, (set_objects l2 st1).
  split; [now apply (ParentToObject_run_found i o dicP d sParentObject k s)|]. split.
  - rewrite (Enable_run H objParent dicE mpE xValue st1) by done. exact Hrun.
  - simpl. rewrite (Hc i _ Hi); [reflexivity|].
    apply below_child with objParent (set_parent (Some objParent) o); [done..|constructor].
Qed.

Lemma ParentToObject_then_Enable_witness :
  g_bInBlenderContext demo_state = true /\
  objects demo_state !! 3 = Some demo_lamp /\
  find_name "Rig" 0 (objects demo_state) = Some 0 /\
  acyclic (<[3 := set_parent (Some 0) demo_lamp]> (objects demo_state)) demo_height /\
  demo_height 0 < recursion_limit demo_host /\
  exists st1 st2,
    ParentToObject 3 demo_parent_config demo_state = (Ok tt, st1) /\
    Enable demo_host 0 (demo_enable_config false) st1 = (Ok tt, st2) /\
    hide_render <$> (objects st2 !! 3) = Some true.
Proof.
  assert (Hac : acyclic (<[3 := set_parent (Some 0) demo_lamp]> (objects demo_state))
                  demo_height).
  { intros j o p Ho Hp.
    do 5 (destruct j as [|j]; [injection Ho as <-; simpl in Hp; try discriminate Hp;
                               injection Hp as <-; simpl; lia|]).
    discriminate Ho. }
  split; [reflexivity|]. split; [reflexivity|]. split; [reflexivity|]. split; [exact Hac|].
  split; [simpl; lia|].
  apply (ParentToObject_then_Enable demo_host demo_height 3 demo_lamp demo_parent_config
           (demo_enable_config false)
           [("sDTI", VStr "/catharsys/blender/modify/object/parent:1.0");
            ("sParentObject", VStr "Rig"); ("bKeepTransform", VBool true);
            ("bSkipNonexistingParent", VBool false)]
           [("sDTI", VStr "/catharsys/blender/modify/object/enable:1.0");
            ("xValue", VBool false)] "Rig" 0 false demo_state);
    [reflexivity | reflexivity | discriminate | reflexivity | reflexivity | reflexivity
    | reflexivity | reflexivity | reflexivity | exact Hac | simpl; lia].
Defined.
